(** * polaris_cdash: CDash report generation from a directory of log files

    A shallow embedding of [polaris-cdash/polaris_cdash.py] and the
    properties of its three report generators.

    Conventions of the embedding.
    - A Python [str] is a [string]; characters are 8-bit codes.  The
      program inspects characters only through the ASCII ranges of its
      regular expression, the keyword ["ERROR"] and the path separator.
    - Paths follow [posixpath].
    - The program's inputs from the operating system (platform strings,
      the psutil module, the clock, directory enumeration, file contents)
      are the fields of an environment record [Env]; so is the verdict of
      the XML parser on a document, which the program only consults.
    - Effects are threaded through a state-and-exception monad over a
      [World] holding what was printed and which documents were written. *)

From Equations Require Import Equations.
From Equations.Prop Require Import Logic.
From stdpp Require Import base option list strings gmap sorting pretty.
From Stdlib Require Import Ascii ZArith Lia.

Local Open Scope Z_scope.

(** ** Python string primitives *)

(** [s.startswith(p)] *)
Definition startswith (s p : string) : bool := String.prefix p s.
Arguments startswith : simpl never.

(** [sub in s] for two strings: [sub] occurs in [s] at some offset. *)
Fixpoint py_in (sub s : string) : bool :=
  startswith s sub ||
  match s with
  | EmptyString => false
  | String _ s' => py_in sub s'
  end.

(** What [sub in s] means: [s] can be cut around a copy of [sub]. *)
Definition substring_of (sub s : string) : Prop :=
  ∃ pre post, s = pre +:+ sub +:+ post.

(** [c * n] for a one-character string. *)
Fixpoint str_repeat (c : ascii) (n : nat) : string :=
  match n with
  | O => ""
  | S n' => String c (str_repeat c n')
  end.

(** ** [strip_ansi_codes] *)

Definition ESC : ascii := "027"%char.

Definition code (c : ascii) : N := Ascii.N_of_ascii c.

(** A range [lo-hi] inside a character class. *)
Definition in_range (lo hi c : ascii) : bool :=
  ((code lo <=? code c) && (code c <=? code hi))%N.

(** The four character classes of the pattern
    [\x1B(?:[@-Z\\-_]|\[[0-?]*[ -/]*[@-~])]. *)
Definition class_Fe (c : ascii) : bool :=
  in_range "@" "Z" c || in_range "\" "_" c.
Definition class_param (c : ascii) : bool := in_range "0" "?" c.
Definition class_inter (c : ascii) : bool := in_range " " "/" c.
Definition class_final (c : ascii) : bool := in_range "@" "~" c.

(** The fragment of regular expressions the pattern is written in, and
    the strings an expression matches. *)
Inductive regex : Type :=
  | Chr (c : ascii)
  | Cls (p : ascii → bool)
  | Seq (r1 r2 : regex)
  | Alt (r1 r2 : regex)
  | Star (r : regex).

Inductive re_match : regex → string → Prop :=
  | M_Chr c : re_match (Chr c) (String c "")
  | M_Cls (p : ascii → bool) c : p c = true → re_match (Cls p) (String c "")
  | M_Seq r1 r2 s1 s2 :
      re_match r1 s1 → re_match r2 s2 → re_match (Seq r1 r2) (s1 +:+ s2)
  | M_AltL r1 r2 s : re_match r1 s → re_match (Alt r1 r2) s
  | M_AltR r1 r2 s : re_match r2 s → re_match (Alt r1 r2) s
  | M_Star0 r : re_match (Star r) ""
  | M_StarS r s1 s2 :
      re_match r s1 → re_match (Star r) s2 → re_match (Star r) (s1 +:+ s2).

(** [ansi_escape = re.compile(r'\x1B(?:[@-Z\\-_]|\[[0-?]*[ -/]*[@-~])')] *)
Definition ansi_escape : regex :=
  Seq (Chr ESC)
      (Alt (Cls class_Fe)
           (Seq (Chr "[")
                (Seq (Star (Cls class_param))
                     (Seq (Star (Cls class_inter)) (Cls class_final))))).

(** The greedy run of a starred class: what is left after it. *)
Fixpoint skip_while (p : ascii → bool) (s : string) : string :=
  match s with
  | String c s' => if p c then skip_while p s' else s
  | EmptyString => ""
  end.

(** [ansi_escape.match] at the head of [s]: the text after the match.
    The classes that follow one another in the pattern are pairwise
    disjoint, so the greedy run of each star is the only way to match
    (see [ansi_escape_match_complete]). *)
Definition ansi_escape_match (s : string) : option string :=
  match s with
  | String e (String c rest) =>
      if negb (Ascii.eqb e ESC) then None
      else if class_Fe c then Some rest
      else if Ascii.eqb c "[" then
        match skip_while class_inter (skip_while class_param rest) with
        | String f rest' => if class_final f then Some rest' else None
        | EmptyString => None
        end
      else None
  | _ => None
  end.

(** [ansi_escape.sub('', text)]: scanning from the left, every match is
    dropped and scanning resumes right after it; a character at which no
    match starts is kept. *)
Equations? strip_ansi_codes (text : string) : string
  by wf (String.length text) lt :=
  strip_ansi_codes EmptyString := "";
  strip_ansi_codes (String c s) with inspect (ansi_escape_match (String c s)) := {
    | exist _ (Some rest) Hm => strip_ansi_codes rest
    | exist _ None _ => String c (strip_ansi_codes s) }.
Proof.
  all: try (simpl; lia).
  assert (∀ p t, (String.length (skip_while p t) ≤ String.length t)%nat)
    as Hskip.
  { intros p t. induction t as [|a t IH]; simpl; [lia|].
    destruct (p a); simpl; lia. }
  destruct s as [|c' s]; simpl in *; [done|].
  destruct (negb _); [done|].
  destruct (class_Fe c'); [simplify_eq; lia|].
  destruct (Ascii.eqb c' "["); [|done].
  pose proof (Hskip class_inter (skip_while class_param s)) as H1.
  pose proof (Hskip class_param s) as H2.
  destruct (skip_while class_inter _) as [|f r]; [done|].
  destruct (class_final f); [|done].
  simplify_eq. simpl in H1. lia.
Qed.

(** ** [posixpath] *)

(** [s.endswith(suf)] *)
Fixpoint endswith (s suf : string) : bool :=
  String.eqb s suf ||
  match s with
  | EmptyString => false
  | String _ s' => endswith s' suf
  end.

(** [s.rfind(c) + 1]: one past the last [c] of [s], and 0 without one. *)
Fixpoint rfind_succ (c : ascii) (s : string) : nat :=
  match s with
  | EmptyString => O
  | String a s' =>
      match rfind_succ c s' with
      | O => if Ascii.eqb a c then 1%nat else O
      | S i => S (S i)
      end
  end.

(** [s[i:]] *)
Fixpoint str_from (i : nat) (s : string) : string :=
  match i, s with
  | O, _ => s
  | S i', String _ s' => str_from i' s'
  | S _, EmptyString => ""
  end.

(** [s.split(sep)] for a one-character separator. *)
Fixpoint str_split (sep : ascii) (s : string) : list string :=
  match s with
  | EmptyString => [""]
  | String c s' =>
      if Ascii.eqb c sep then "" :: str_split sep s'
      else match str_split sep s' with
           | w :: ws => String c w :: ws
           | [] => [String c ""]
           end
  end.

(** [sep.join(l)] *)
Fixpoint str_join (sep : string) (l : list string) : string :=
  match l with
  | [] => ""
  | [x] => x
  | x :: l' => x +:+ sep +:+ str_join sep l'
  end.

Module os_path.

(** [i = p.rfind('/') + 1; return p[i:]] *)
Definition basename (p : string) : string :=
  let i := rfind_succ "/" p in
  str_from i p.

(** [os.path.join(a, b)] with one trailing component. *)
Definition join (a b : string) : string :=
  if startswith b "/" then b
  else if bool_decide (a = "") || endswith a "/" then a +:+ b
  else a +:+ "/" +:+ b.

(** One round of the loop of [normpath] over the components;
    [new_comps] grows and shrinks at its end. *)
Definition normpath_step (initial_slashes : nat)
    (new_comps : list string) (comp : string) : list string :=
  if bool_decide (comp = "") || bool_decide (comp = ".") then new_comps
  else if bool_decide (comp ≠ "..")
          || (bool_decide (initial_slashes = O) && bool_decide (new_comps = []))
          || (bool_decide (new_comps ≠ []) && bool_decide (last new_comps = Some ".."))
  then new_comps ++ [comp]
  else if bool_decide (new_comps ≠ []) then removelast new_comps
  else new_comps.

Definition normpath (path : string) : string :=
  if bool_decide (path = "") then "."
  else
    let initial_slashes :=
      if startswith path "/" then
        if startswith path "//" && negb (startswith path "///") then 2%nat
        else 1%nat
      else O in
    let comps := str_split "/" path in
    let comps := foldl (normpath_step initial_slashes) [] comps in
    let path := str_join "/" comps in
    let path := str_repeat "/" initial_slashes +:+ path in
    if bool_decide (path = "") then "." else path.

End os_path.

(** ** Exceptions and the effect monad *)

(** The classes of exception the program can meet, as far as its two
    [except] clauses tell them apart.  All are subclasses of [Exception];
    [ModuleNotFoundError] is a subclass of [ImportError], and
    [ExpatError] is [xml.parsers.expat.ExpatError]. *)
Inductive exc_class : Type :=
  | ImportError
  | ModuleNotFoundError
  | OSError
  | TypeError
  | RuntimeError
  | OverflowError
  | ExpatError.

Record exception : Type := mk_exc { exc_cls : exc_class; exc_str : string }.

(** [isinstance(e, ImportError)] *)
Definition is_ImportError (e : exception) : bool :=
  match exc_cls e with
  | ImportError | ModuleNotFoundError => true
  | _ => false
  end.

Inductive outcome (A : Type) : Type :=
  | Ok (a : A)
  | Raise (e : exception).
Arguments Ok {A} a.
Arguments Raise {A} e.

(** An XML element as [xml.etree.ElementTree] holds it. *)
#[warnings="-register-all"]
Inductive Element : Type :=
  Elem { tag : string;
         attrib : gmap string string;
         text : option string;
         children : list Element }.

(** A document on disk, as the element tree the generator handed to the
    serialiser, and whether it went through [minidom]'s [toprettyxml] or
    was written by [ElementTree.write].  How the serialiser lays the tree
    out as text (indentation, escapes, line ends) is not part of the
    model. *)
Record Document : Type := mk_doc { doc_pretty : bool; doc_root : Element }.

(** What a run leaves behind: the lines printed, the files written, and
    how many times the clock was read. *)
Record World : Type := mk_world {
  stdout : list string;
  files : gmap string Document;
  clock_reads : nat }.

Definition initial_world : World :=
  {| stdout := []; files := ∅; clock_reads := O |}.

(** A computation keeps the world it reached when it raises. *)
Definition M (A : Type) : Type := World → outcome A * World.

Global Instance M_ret : MRet M := λ A a w, (Ok a, w).
Global Instance M_bind : MBind M := λ A B f m w,
  match m w with
  | (Ok a, w') => f a w'
  | (Raise e, w') => (Raise e, w')
  end.

Definition raise {A} (e : exception) : M A := λ w, (Raise e, w).

Definition lift {A} (o : outcome A) : M A := λ w, (o, w).

(** [try: body except <class> as e: handler e]; an exception outside the
    class goes on to the caller. *)
Definition try_except {A} (body : M A) (catches : exception → bool)
    (handler : exception → M A) : M A := λ w,
  match body w with
  | (Ok a, w') => (Ok a, w')
  | (Raise e, w') => if catches e then handler e w' else (Raise e, w')
  end.

(** [except Exception]: every class of [exc_class]. *)
Definition Exception (e : exception) : bool := true.

Definition print (line : string) : M unit := λ w,
  (Ok (), {| stdout := stdout w ++ [line];
             files := files w;
             clock_reads := clock_reads w |}).

Definition write_file (fname : string) (d : Document) : M unit := λ w,
  (Ok (), {| stdout := stdout w;
             files := <[fname := d]> (files w);
             clock_reads := clock_reads w |}).

(** ** The environment *)

(** The [psutil] module, once imported. *)
Record Psutil : Type := mk_psutil {
  cpu_count : bool → outcome (option Z);
  virtual_memory_total : outcome Z }.

Record Env : Type := mk_env {
  platform_system : string;
  platform_node : string;
  platform_release : string;
  platform_version : string;
  platform_machine : string;
  sys_maxsize : Z;
  (** [import psutil] *)
  import_psutil : outcome Psutil;
  (** [int(time.time())] at the n-th reading of the clock *)
  clock : nat → Z;
  (** [time.ctime(t)] *)
  time_ctime : Z → string;
  (** [time.strftime("%b %d %H:%M %Z", time.localtime(t))] *)
  time_strftime : Z → string;
  (** [glob.glob(pattern)], in the order the directory is enumerated *)
  glob_glob : string → list string;
  (** [open(path, 'r', errors='replace')] followed by [f.read()] *)
  open_read : string → outcome string;
  (** [minidom.parseString(ET.tostring(e))], as far as it returns or
      raises: [ExpatError] when the serialised element is not well-formed
      XML, as it is when a text or an attribute value holds a character
      that XML 1.0 forbids *)
  minidom_parse : Element → outcome unit }.

(** [int(time.time())] *)
Definition time_time (env : Env) : M Z := λ w,
  (Ok (clock env (clock_reads w)),
   {| stdout := stdout w;
      files := files w;
      clock_reads := S (clock_reads w) |}).

(** ** Python values as text *)

(** [str(n)] for an [int] *)
Definition str_int (n : Z) : string := pretty n.

(** [str(v)] where [v] is an [int] or [None] *)
Definition str_opt_int (v : option Z) : string :=
  match v with
  | Some n => str_int n
  | None => "None"
  end.

(** ** XML helpers *)

(** [ET.SubElement(parent, tag).text = txt], the child alone. *)
Definition text_elem (tag txt : string) : Element :=
  Elem tag ∅ (Some txt) [].

(** [e.findall(tag)]: the children of [e] with that tag, in order. *)
Definition findall (t : string) (e : Element) : list Element :=
  filter (λ c, tag c = t) (children e).

(** [e.find(tag)] *)
Definition find (t : string) (e : Element) : option Element :=
  head (findall t e).

(** [e.findtext(tag)] *)
Definition findtext (t : string) (e : Element) : option string :=
  c ← find t e; text c.

(** [for key, value in sys_info.items(): site.set(key, value)] *)
Definition set_all (sys_info attrs : gmap string string) : gmap string string :=
  map_fold (λ key value acc, <[key := value]> acc) attrs sys_info.

(** ** The command line *)

(** The namespace [parser.parse_args()] returns; [build_name] is [None]
    when [--build-name] is not given. *)
Record Args : Type := mk_args {
  log_dir : string;
  build_stamp : string;
  site_name : string;
  build_name : option string;
  build_id : string }.

(** The root element both reports start from. *)
Definition site_element (bn : string) (args : Args)
    (sys_info : gmap string string) (kids : list Element) : Element :=
  let attrs : gmap string string := ∅ in
  let attrs := <["BuildName" := bn]> attrs in
  let attrs := <["BuildStamp" := build_stamp args]> attrs in
  let attrs := <["Name" := site_name args]> attrs in
  let attrs := <["Generator" := "ctest-3.24.2"]> attrs in
  let attrs := <["CompilerName" := ""]> attrs in
  let attrs := <["CompilerVersion" := ""]> attrs in
  let attrs := set_all sys_info attrs in
  Elem "Site" attrs None kids.

(** ElementTree serialises only text: an attribute left at [None] makes
    [ET.tostring] and [ElementTree.write] raise [TypeError] (what
    [ElementTree.write] had put in the file by then is not recorded).
    [main] always fills [build_name] in before it calls a generator. *)
Definition serializable (v : option string) : M string :=
  match v with
  | Some s => mret s
  | None => raise (mk_exc TypeError "cannot serialize None (type NoneType)")
  end.

(** ** [get_system_info] *)

(** [float(n)] for an [int] of any size, exponent range set aside: the
    nearest number with a significand of 53 bits, a tie going to the even
    significand. *)
Definition nearest_double (n : Z) : Z :=
  let a := Z.abs n in
  let k := Z.log2 a + 1 - 53 in
  if k <=? 0 then n
  else
    let q := a / 2 ^ k in
    let r := a mod 2 ^ k in
    let q := if (2 ^ k <? 2 * r) || ((2 * r =? 2 ^ k) && Z.odd q)
             then q + 1 else q in
    Z.sgn n * (q * 2 ^ k).

(** [int(total / (1024 * 1024))]: [/] on two [int]s gives the double
    nearest to the exact quotient, or [OverflowError] when that is beyond
    the doubles; [int] truncates.  The divisor is a power of two, so the
    quotient is rounded as [total] is. *)
Definition megabytes (total : Z) : outcome Z :=
  let x := nearest_double total in
  if 2 ^ 1024 * (1024 * 1024) <=? Z.abs x
  then Raise (mk_exc OverflowError
                "integer division result too large for a float")
  else Ok (x ÷ (1024 * 1024)).

(** The three keys of the [try] block are set by its body or, all three
    again, by its handler; the handler therefore starts from the mapping
    as it was before the [try]. *)
Definition get_system_info (env : Env) : M (gmap string string) :=
  let info : gmap string string := ∅ in
  let info := <["OSName" := platform_system env]> info in
  let info := <["Hostname" := platform_node env]> info in
  let info := <["OSRelease" := platform_release env]> info in
  let info := <["OSVersion" := platform_version env]> info in
  let info := <["OSPlatform" := platform_machine env]> info in
  let info := <["Is64Bits" := if (sys_maxsize env >? 2 ^ 32) then "1" else "0"]> info in
  info ← try_except
    (psutil ← lift (import_psutil env);
     logical ← lift (cpu_count psutil true);
     let info := <["NumberOfLogicalCPU" := str_opt_int logical]> info in
     physical ← lift (cpu_count psutil false);
     let info := <["NumberOfPhysicalCPU" := str_opt_int physical]> info in
     total ← lift (virtual_memory_total psutil);
     memory ← lift (megabytes total);
     let info := <["TotalPhysicalMemory" := str_int memory]> info in
     mret info)
    is_ImportError
    (λ _,
     let info := <["NumberOfLogicalCPU" := "1"]> info in
     let info := <["NumberOfPhysicalCPU" := "1"]> info in
     let info := <["TotalPhysicalMemory" := "1024"]> info in
     mret info);
  let info := <["VendorString" := "Unknown"]> info in
  let info := <["VendorID" := "Unknown"]> info in
  let info := <["FamilyID" := "0"]> info in
  let info := <["ModelID" := "0"]> info in
  let info := <["ProcessorCacheSize" := "0"]> info in
  let info := <["ProcessorClockFrequency" := "0"]> info in
  mret info.

(** ** [generate_build_xml] *)

(** The [Build] element of a build that started at [start_time]. *)
Definition build_element (env : Env) (start_time : Z) : Element :=
  Elem "Build" ∅ None
    [ text_elem "StartDateTime" (time_ctime env start_time);
      text_elem "StartBuildTime" (str_int start_time);
      text_elem "BuildCommand" "polaris_scan";
      text_elem "EndDateTime" (time_ctime env start_time);
      text_elem "EndBuildTime" (str_int start_time);
      text_elem "ElapsedMinutes" "0" ].

(** The document is serialised and parsed again before anything is
    written or printed. *)
Definition generate_build_xml (env : Env) (args : Args)
    (sys_info : gmap string string) : M unit :=
  start_time ← time_time env;
  let build := build_element env start_time in
  bn ← serializable (build_name args);
  let site := site_element bn args sys_info [build] in
  lift (minidom_parse env site);;
  write_file "Build.xml" (mk_doc true site);;
  print "Generated Build.xml".

(** ** [generate_test_xml] *)

(** One entry of the list [tests]. *)
Record TestData : Type := mk_test {
  name : string;
  status : string;
  output : string;
  path : string }.

(** The [try] block of the loop: the text of the log file, sanitized, or
    the description of what went wrong. *)
Definition read_content (env : Env) (log_file : string) : M string :=
  try_except
    (content ← lift (open_read env log_file);
     let content := strip_ansi_codes content in
     mret content)
    Exception
    (λ e, mret ("Error reading file: " +:+ exc_str e)).

(** The body of [for log_file in log_files], up to [tests.append]. *)
Definition scan_log_file (env : Env) (log_file : string) : M TestData :=
  let filename := os_path.basename log_file in
  let test_name := filename in
  content ← read_content env log_file;
  let status := if py_in "ERROR" content then "failed" else "passed" in
  mret {| name := test_name; status := status;
          output := content; path := log_file |}.

(** [ET.SubElement(test_list, "Test").text = f"./{args.log_dir}/{test_name}"] *)
Definition test_list_entry (args : Args) (t : TestData) : Element :=
  text_elem "Test" ("./" +:+ log_dir args +:+ "/" +:+ name t).

Definition named_measurement (type name value : string) : Element :=
  Elem "NamedMeasurement" (<["type" := type]> (<["name" := name]> ∅)) None
    [ text_elem "Value" value ].

(** The body of [for test_data in tests]. *)
Definition test_element (args : Args) (t : TestData) : Element :=
  Elem "Test" {["Status" := status t]} None
    [ text_elem "Name" (name t);
      text_elem "Path" ("./" +:+ log_dir args);
      text_elem "FullName" ("./" +:+ log_dir args +:+ "/" +:+ name t);
      text_elem "FullCommandLine" ("cat " +:+ path t);
      Elem "Results" ∅ None
        [ named_measurement "numeric/double" "Execution Time" "1.0";
          named_measurement "text/string" "Completion Status" "Completed";
          named_measurement "text/string" "Command Line" ("cat " +:+ path t);
          Elem "Measurement" ∅ None [ text_elem "Value" (output t) ] ] ].

(** [log_files.sort()]: ascending in the order of [str], which compares
    character codes from the left.  The order is total and antisymmetric,
    so the sorted list is the same for every sorting algorithm. *)
Definition list_sort (l : list string) : list string :=
  merge_sort String.le l.

(** The elements are put together once their parts are known; the
    effects come in the order of the source: clock, warning, one read per
    log file, clock, clock, write, confirmation. *)
Definition generate_test_xml (env : Env) (args : Args)
    (sys_info : gmap string string) : M unit :=
  start_time ← time_time env;
  let formatted_start_time := time_strftime env start_time in
  let log_files := glob_glob env (os_path.join (log_dir args) "*.log") in
  let log_files := list_sort log_files in
  (if bool_decide (log_files = [])
   then print ("Warning: No log files found in " +:+ log_dir args)
   else mret ());;
  tests ← mapM (scan_log_file env) log_files;
  let test_list := Elem "TestList" ∅ None (test_list_entry args <$> tests) in
  end_time ← time_time env;
  let formatted_end_time := time_strftime env end_time in
  end_test_time ← time_time env;
  let testing := Elem "Testing" ∅ None
    ([ text_elem "StartDateTime" formatted_start_time;
       text_elem "StartTestTime" (str_int start_time);
       test_list ]
     ++ (test_element args <$> tests)
     ++ [ text_elem "EndDateTime" formatted_end_time;
          text_elem "EndTestTime" (str_int end_test_time) ]) in
  bn ← serializable (build_name args);
  let site := site_element bn args sys_info [testing] in
  write_file "Test.xml" (mk_doc false site);;
  print "Generated Test.xml".

(** ** [generate_done_xml] *)

(** The [Done] element of a run that ended at [now]. *)
Definition done_element (args : Args) (now : Z) : Element :=
  Elem "Done" ∅ None
    [ text_elem "buildId" (build_id args);
      text_elem "time" (str_int now) ].

Definition generate_done_xml (env : Env) (args : Args) : M unit :=
  now ← time_time env;
  let root := done_element args now in
  lift (minidom_parse env root);;
  write_file "Done.xml" (mk_doc true root);;
  print "Generated Done.xml".

(** ** [main] *)

(** Truth of a value that is a [str] or [None]. *)
Definition truthy (v : option string) : bool :=
  match v with
  | None => false
  | Some s => negb (String.eqb s "")
  end.

(** [if not args.build_name: args.build_name = ...] *)
Definition default_build_name (args : Args) : Args :=
  if negb (truthy (build_name args)) then
    {| log_dir := log_dir args;
       build_stamp := build_stamp args;
       site_name := site_name args;
       build_name := Some (os_path.basename (os_path.normpath (log_dir args)));
       build_id := build_id args |}
  else args.

Definition main (env : Env) (args : Args) : M unit :=
  let args := default_build_name args in
  sys_info ← get_system_info env;
  generate_build_xml env args sys_info;;
  generate_test_xml env args sys_info;;
  generate_done_xml env args.

(** * Vocabulary of the properties *)

(** Every character of [s] is in the class [p]. *)
Fixpoint all_in (p : ascii → bool) (s : string) : bool :=
  match s with
  | EmptyString => true
  | String c s' => p c && all_in p s'
  end.

(** The root element of [Test.xml] in a world. *)
Definition test_xml (w : World) : option Element :=
  doc_root <$> files w !! "Test.xml".

(** The per-test record elements of a test report, in document order. *)
Definition test_records (site : Element) : list Element :=
  match find "Testing" site with
  | Some testing => findall "Test" testing
  | None => []
  end.

(** The texts of the entries of the test list, in document order. *)
Definition test_list (site : Element) : list string :=
  match find "Testing" site with
  | Some testing =>
      match find "TestList" testing with
      | Some l => omap text (findall "Test" l)
      | None => []
      end
  | None => []
  end.

Definition record_status (r : Element) : option string :=
  attrib r !! "Status".

Definition record_name (r : Element) : option string :=
  findtext "Name" r.

(** The log text a record embeds: [Results/Measurement/Value]. *)
Definition record_output (r : Element) : option string :=
  results ← find "Results" r;
  measurement ← find "Measurement" results;
  findtext "Value" measurement.

(** The entry the loop appends to [tests] for one log file. *)
Definition test_data (env : Env) (log_file : string) : TestData :=
  let content :=
    match open_read env log_file with
    | Ok raw => strip_ansi_codes raw
    | Raise e => "Error reading file: " +:+ exc_str e
    end in
  {| name := os_path.basename log_file;
     status := if py_in "ERROR" content then "failed" else "passed";
     output := content;
     path := log_file |}.

(** The root element of [Build.xml] in a world. *)
Definition build_xml (w : World) : option Element :=
  doc_root <$> files w !! "Build.xml".

(** The tags of an element and of everything below it. *)
Fixpoint tags (e : Element) : list string :=
  match e with
  | Elem t _ _ kids => t :: flat_map tags kids
  end.

(** The keys of the mapping [get_system_info] returns. *)
Definition host_info_keys : gset string :=
  list_to_set
    [ "OSName"; "Hostname"; "OSRelease"; "OSVersion"; "OSPlatform";
      "Is64Bits"; "NumberOfLogicalCPU"; "NumberOfPhysicalCPU";
      "TotalPhysicalMemory"; "VendorString"; "VendorID"; "FamilyID";
      "ModelID"; "ProcessorCacheSize"; "ProcessorClockFrequency" ].

(** The CPU and memory query fails: importing psutil raises, or one of
    the three calls on it does. *)
Definition query_fails (env : Env) : Prop :=
  match import_psutil env with
  | Raise _ => True
  | Ok ps =>
      (∃ e, cpu_count ps true = Raise e) ∨
      (∃ e, cpu_count ps false = Raise e) ∨
      (∃ e, virtual_memory_total ps = Raise e)
  end.

(** The three values of the fallback. *)
Definition placeholders (info : gmap string string) : Prop :=
  info !! "NumberOfLogicalCPU" = Some "1" ∧
  info !! "NumberOfPhysicalCPU" = Some "1" ∧
  info !! "TotalPhysicalMemory" = Some "1024".

(** The collector never fails: it returns the mapping with the fixed
    key set, and with the placeholders whenever the query fails. *)
Definition never_fails (env : Env) (w : World) : Prop :=
  ∃ info w',
    get_system_info env w = (Ok info, w') ∧
    dom info = host_info_keys ∧
    (query_fails env → placeholders info).

(** A path component: no separator in it. *)
Definition slash_free (s : string) : bool :=
  all_in (λ c, negb (Ascii.eqb c "/")) s.

(** What stands before the last component of a path: nothing, or a
    directory path and its separator. *)
Definition dir_prefix (d : string) : Prop :=
  d = "" ∨ ∃ d', d = d' +:+ "/".

(** The environment with another directory enumeration. *)
Definition with_glob (env : Env) (g : string → list string) : Env :=
  {| platform_system := platform_system env;
     platform_node := platform_node env;
     platform_release := platform_release env;
     platform_version := platform_version env;
     platform_machine := platform_machine env;
     sys_maxsize := sys_maxsize env;
     import_psutil := import_psutil env;
     clock := clock env;
     time_ctime := time_ctime env;
     time_strftime := time_strftime env;
     glob_glob := g;
     open_read := open_read env;
     minidom_parse := minidom_parse env |}.

(** A component that [normpath] keeps as it is: not empty, without a
    separator, and neither ["."] nor [".."]. *)
Definition plain_segment (seg : string) : bool :=
  slash_free seg
  && negb (String.eqb seg "")
  && negb (String.eqb seg ".")
  && negb (String.eqb seg "..").


(** The root element of [Done.xml] in a world. *)
Definition done_xml (w : World) : option Element :=
  doc_root <$> files w !! "Done.xml".

(** The session element of a test report. *)
Definition testing_of (site : Element) : option Element :=
  find "Testing" site.

Definition record_full_name (r : Element) : option string :=
  findtext "FullName" r.

Definition record_command (r : Element) : option string :=
  findtext "FullCommandLine" r.

(** A text without the escape character. *)
Definition esc_free (s : string) : bool :=
  negb (py_in (String ESC "") s).

(** A text written as plain pieces, each followed by an escape
    sequence, and the same text without the sequences. *)
Fixpoint colored (pieces : list (string * string)) : string :=
  match pieces with
  | [] => ""
  | (plain, esc) :: rest => plain +:+ esc +:+ colored rest
  end.

Fixpoint uncolored (pieces : list (string * string)) : string :=
  match pieces with
  | [] => ""
  | (plain, _) :: rest => plain +:+ uncolored rest
  end.

(** The [try] block of [get_system_info] on its own: the two CPU counts
    and the memory size in megabytes, or the exception of the first step
    that raises. *)
Definition psutil_query (env : Env) : outcome (option Z * option Z * Z) :=
  match import_psutil env with
  | Raise e => Raise e
  | Ok psutil =>
      match cpu_count psutil true with
      | Raise e => Raise e
      | Ok logical =>
          match cpu_count psutil false with
          | Raise e => Raise e
          | Ok physical =>
              match virtual_memory_total psutil with
              | Raise e => Raise e
              | Ok total =>
                  match megabytes total with
                  | Raise e => Raise e
                  | Ok memory => Ok (logical, physical, memory)
                  end
              end
          end
      end
  end.

(** The mapping the collector returns, given the three values its [try]
    statement settles. *)
Definition host_info (env : Env) (logical physical memory : string)
    : gmap string string :=
  <["ProcessorClockFrequency" := "0"]>
    (<["ProcessorCacheSize" := "0"]>
    (<["ModelID" := "0"]>
    (<["FamilyID" := "0"]>
    (<["VendorID" := "Unknown"]>
    (<["VendorString" := "Unknown"]>
    (<["TotalPhysicalMemory" := memory]>
    (<["NumberOfPhysicalCPU" := physical]>
    (<["NumberOfLogicalCPU" := logical]>
    (<["Is64Bits" := if (sys_maxsize env >? 2 ^ 32) then "1" else "0"]>
    (<["OSPlatform" := platform_machine env]>
    (<["OSVersion" := platform_version env]>
    (<["OSRelease" := platform_release env]>
    (<["Hostname" := platform_node env]>
    (<["OSName" := platform_system env]> ∅)))))))))))))).

(** The three documents of a run. *)
Definition report_files : gset string :=
  {[ "Build.xml"; "Test.xml"; "Done.xml" ]}.

(** The attributes both generators set on the root element before they
    copy the host information onto it. *)
Definition base_attributes (bn : string) (args : Args) : gmap string string :=
  list_to_map
    [ ("BuildName", bn);
      ("BuildStamp", build_stamp args);
      ("Name", site_name args);
      ("Generator", "ctest-3.24.2");
      ("CompilerName", "");
      ("CompilerVersion", "") ].

(** The build name [main] works with. *)
Definition effective_build_name (args : Args) : string :=
  match build_name args with
  | Some s =>
      if String.eqb s "" then os_path.basename (os_path.normpath (log_dir args))
      else s
  | None => os_path.basename (os_path.normpath (log_dir args))
  end.

(** The log files of a run, in the order they are processed. *)
Definition run_log_files (env : Env) (args : Args) : list string :=
  list_sort (glob_glob env (os_path.join (log_dir args) "*.log")).

(** The warning of a run, when it has one. *)
Definition run_warning (env : Env) (args : Args) : list string :=
  if bool_decide (run_log_files env args = [])
  then ["Warning: No log files found in " +:+ log_dir args] else [].

(** The three documents of a run of [main] that starts in [w] with the
    host information [info]: the build report takes the first reading of
    the clock, the test report the next three, the completion marker the
    fifth. *)
Definition run_build_site (env : Env) (args : Args)
    (info : gmap string string) (w : World) : Element :=
  site_element (effective_build_name args) (default_build_name args) info
    [build_element env (clock env (clock_reads w))].

Definition run_test_site (env : Env) (args : Args)
    (info : gmap string string) (w : World) : Element :=
  let tests := test_data env <$> run_log_files env args in
  site_element (effective_build_name args) (default_build_name args) info
    [ Elem "Testing" ∅ None
        ([ text_elem "StartDateTime"
             (time_strftime env (clock env (1 + clock_reads w)));
           text_elem "StartTestTime" (str_int (clock env (1 + clock_reads w)));
           Elem "TestList" ∅ None
             (test_list_entry (default_build_name args) <$> tests) ]
         ++ (test_element (default_build_name args) <$> tests)
         ++ [ text_elem "EndDateTime"
                (time_strftime env (clock env (2 + clock_reads w)));
              text_elem "EndTestTime"
                (str_int (clock env (3 + clock_reads w))) ]) ].

Definition run_done_root (env : Env) (args : Args) (w : World) : Element :=
  done_element (default_build_name args) (clock env (4 + clock_reads w)).

(** The world such a run ends in when it ends normally. *)
Definition run_world (env : Env) (args : Args) (info : gmap string string)
    (w : World) : World :=
  {| stdout := stdout w ++ ["Generated Build.xml"] ++ run_warning env args
                 ++ ["Generated Test.xml"; "Generated Done.xml"];
     files := <["Done.xml" := mk_doc true (run_done_root env args w)]>
                (<["Test.xml" := mk_doc false (run_test_site env args info w)]>
                (<["Build.xml" := mk_doc true (run_build_site env args info w)]>
                (files w)));
     clock_reads := 5 + clock_reads w |}.

(** Following the words of the specification: the trailing segment of a
    path is its last component that is not empty, so that separators at
    the end do not count; a path without such a component has none. *)
Definition trailing_segment (p : string) : option string :=
  last (filter (λ c, c ≠ "") (str_split "/" p)).

(** The component lists [normpath] produces: leading [".."] components,
    which only a relative path keeps, and then plain segments. *)
Inductive normal_comps (initial_slashes : nat) : list string → Prop :=
  | normal_nil : normal_comps initial_slashes []
  | normal_dotdot l :
      initial_slashes = O → Forall (λ c, c = "..") l →
      normal_comps initial_slashes (l ++ [".."])
  | normal_plain l c :
      normal_comps initial_slashes l → plain_segment c = true →
      normal_comps initial_slashes (l ++ [c]).

(** ** A sample run *)

Module Fixture.

Definition colored_ok : string :=
  String ESC "[31mOK" +:+ String ESC "[0m".

Definition denied : exception :=
  mk_exc OSError "[Errno 13] Permission denied: 'logs/c.log'".

(** A parser that rejects the control characters XML 1.0 forbids,
    wherever they stand in a text or in an attribute value. *)
Definition xml_char (c : ascii) : bool :=
  (32 <=? code c)%N || bool_decide (code c ∈ [9; 10; 13]%N).

Fixpoint well_formed (e : Element) : bool :=
  match e with
  | Elem _ attrs txt kids =>
      bool_decide (map_Forall (λ _ v, all_in xml_char v = true) attrs)
      && from_option (all_in xml_char) true txt
      && forallb well_formed kids
  end.

Definition parse (e : Element) : outcome unit :=
  if well_formed e then Ok ()
  else Raise (mk_exc ExpatError "not well-formed (invalid token)").

Definition env : Env :=
  {| platform_system := "Linux";
     platform_node := "polaris-login-01";
     platform_release := "5.14.21";
     platform_version := "#1 SMP";
     platform_machine := "x86_64";
     sys_maxsize := 2 ^ 63 - 1;
     import_psutil := Raise (mk_exc ModuleNotFoundError "No module named 'psutil'");
     clock := λ n, 1700000000 + Z.of_nat n;
     time_ctime := λ t, "ctime " +:+ str_int t;
     time_strftime := λ t, "local " +:+ str_int t;
     glob_glob := λ pattern,
       if bool_decide (pattern = "logs/*.log")
       then ["logs/c.log"; "logs/a.log"; "logs/b.log"] else [];
     open_read := λ p,
       if bool_decide (p = "logs/a.log") then Ok "ERROR: boom"
       else if bool_decide (p = "logs/b.log") then Ok colored_ok
       else if bool_decide (p = "logs/c.log") then Raise denied
       else Raise (mk_exc OSError "[Errno 2] No such file or directory");
     minidom_parse := parse |}.

(** The same machine with an empty log directory. *)
Definition env_empty : Env := with_glob env (λ _, []).

(** A machine where psutil is installed and works. *)
Definition psutil_ok : Psutil :=
  {| cpu_count := λ logical, Ok (Some (if logical then 16 else 8));
     virtual_memory_total := Ok 68719476736 |}.

(** A machine where psutil is installed but cannot read the memory
    statistics. *)
Definition meminfo_missing : exception :=
  mk_exc OSError "[Errno 2] No such file or directory: '/proc/meminfo'".

Definition psutil_broken : Psutil :=
  {| cpu_count := λ logical, Ok (Some (if logical then 16 else 8));
     virtual_memory_total := Raise meminfo_missing |}.

Definition with_psutil (ps : outcome Psutil) : Env :=
  {| platform_system := platform_system env;
     platform_node := platform_node env;
     platform_release := platform_release env;
     platform_version := platform_version env;
     platform_machine := platform_machine env;
     sys_maxsize := sys_maxsize env;
     import_psutil := ps;
     clock := clock env;
     time_ctime := time_ctime env;
     time_strftime := time_strftime env;
     glob_glob := glob_glob env;
     open_read := open_read env;
     minidom_parse := minidom_parse env |}.

Definition args : Args :=
  {| log_dir := "logs";
     build_stamp := "20240101-0100-Nightly";
     site_name := "polaris";
     build_name := Some "nightly";
     build_id := "42" |}.

(** [--log-dir /data/nightly_run] without [--build-name]. *)
Definition args_nightly : Args :=
  {| log_dir := "/data/nightly_run";
     build_stamp := "20240101-0100-Nightly";
     site_name := "polaris";
     build_name := None;
     build_id := "42" |}.

(** [--log-dir a/b/..] without [--build-name]. *)
Definition args_parent : Args :=
  {| log_dir := "a/b/..";
     build_stamp := "20240101-0100-Nightly";
     site_name := "polaris";
     build_name := None;
     build_id := "42" |}.

(** A build name with an escape character in it. *)
Definition args_colored_name : Args :=
  {| log_dir := "logs";
     build_stamp := "20240101-0100-Nightly";
     site_name := "polaris";
     build_name := Some (String "a" (String ESC "b"));
     build_id := "42" |}.

(** What [get_system_info] returns on this machine. *)
Definition info : gmap string string := host_info env "1" "1" "1024".


End Fixture.

(** * Properties *)

(** ** Strings *)

Lemma app_cons c s t : String c s +:+ t = String c (s +:+ t).
Proof. reflexivity. Qed.

Lemma app_empty_l s : "" +:+ s = s.
Proof. reflexivity. Qed.

Lemma app_empty_r s : s +:+ "" = s.
Proof. induction s as [|c s IH]; [done|]. by rewrite app_cons, IH. Qed.

Lemma app_assoc_str s t u : (s +:+ t) +:+ u = s +:+ t +:+ u.
Proof. induction s as [|c s IH]; [done|]. by rewrite !app_cons, IH. Qed.

(** Push appends to the right and evaluate them on literal heads. *)
Ltac str_norm :=
  repeat (rewrite app_cons || rewrite app_empty_l || rewrite app_assoc_str).

Lemma app_length_str s t :
  String.length (s +:+ t) = (String.length s + String.length t)%nat.
Proof. induction s as [|c s IH]; [done|]. rewrite app_cons. simpl. lia. Qed.

Lemma app_inv_tail_str s t r : s +:+ r = t +:+ r → s = t.
Proof.
  revert t. induction s as [|c s IH]; intros [|c' t] Heq; str_norm.
  - done.
  - apply (f_equal String.length) in Heq.
    rewrite app_cons in Heq. simpl in Heq. rewrite !app_length_str in Heq.
    simpl in Heq. lia.
  - apply (f_equal String.length) in Heq.
    rewrite app_cons in Heq. simpl in Heq. rewrite !app_length_str in Heq.
    simpl in Heq. lia.
  - rewrite !app_cons in Heq. simplify_eq. f_equal. auto.
Qed.

Lemma startswith_spec s p : startswith s p = true ↔ ∃ post, s = p +:+ post.
Proof.
  unfold startswith. revert s. induction p as [|c p IH]; intros s.
  - destruct s; simpl; (split; [intros _; eexists; reflexivity|done]).
  - destruct s as [|a s]; simpl.
    + split; [done|]. intros [post Hpost]. by rewrite app_cons in Hpost.
    + destruct (Ascii.ascii_dec c a) as [->|Hne].
      * rewrite IH. split; intros [post Hpost]; exists post.
        -- by rewrite app_cons, Hpost.
        -- rewrite app_cons in Hpost. by simplify_eq.
      * split; [done|]. intros [post Hpost].
        rewrite app_cons in Hpost. by simplify_eq.
Qed.

Lemma py_in_spec sub s : py_in sub s = true ↔ substring_of sub s.
Proof.
  unfold substring_of. induction s as [|c s IH]; simpl.
  - rewrite orb_false_r, startswith_spec. split.
    + intros [post Hpost]. by exists "", post.
    + intros ([|a pre] & post & H); [by exists post|].
      by rewrite app_cons in H.
  - rewrite orb_true_iff, IH, startswith_spec. split.
    + intros [[post Hpost]|(pre & post & Hs)].
      * by exists "", post.
      * exists (String c pre), post. by rewrite app_cons, Hs.
    + intros ([|a pre] & post & H).
      * left. by exists post.
      * right. rewrite app_cons in H. simplify_eq. by exists pre, post.
Qed.

Lemma py_in_false sub s : py_in sub s = false ↔ ¬ substring_of sub s.
Proof. rewrite <-py_in_spec. by destruct (py_in sub s). Qed.

(** ** The escape pattern *)

Lemma all_in_app p s t : all_in p (s +:+ t) = all_in p s && all_in p t.
Proof.
  induction s as [|c s IH]; [done|].
  rewrite app_cons. simpl. by rewrite IH, andb_assoc.
Qed.

Lemma re_match_Chr_inv c s : re_match (Chr c) s → s = String c "".
Proof. by inversion 1. Qed.

Lemma re_match_Cls_inv p s :
  re_match (Cls p) s → ∃ c, s = String c "" ∧ p c = true.
Proof. inversion 1; eauto. Qed.

Lemma re_match_Seq_inv r1 r2 s :
  re_match (Seq r1 r2) s →
  ∃ s1 s2, s = s1 +:+ s2 ∧ re_match r1 s1 ∧ re_match r2 s2.
Proof. inversion 1; eauto. Qed.

Lemma re_match_Alt_inv r1 r2 s :
  re_match (Alt r1 r2) s → re_match r1 s ∨ re_match r2 s.
Proof. inversion 1; eauto. Qed.

Lemma re_match_Star_Cls p s :
  re_match (Star (Cls p)) s ↔ all_in p s = true.
Proof.
  split.
  - remember (Star (Cls p)) as r eqn:Hr. intros H.
    induction H as [| | | | | |r s1 s2 H1 _ H2 IH2]; simplify_eq; [done|].
    apply re_match_Cls_inv in H1 as (c & -> & Hc).
    rewrite app_cons, app_empty_l. simpl. by rewrite Hc, IH2.
  - induction s as [|c s IH]; simpl; [constructor|].
    intros [Hc Hs]%andb_true_iff.
    change (String c s) with (String c "" +:+ s).
    constructor; [by constructor|auto].
Qed.

Lemma skip_while_run p q run s :
  all_in p run = true →
  (∀ c, q c = true → p c = false) →
  (∃ c s', s = String c s' ∧ q c = true) →
  skip_while p (run +:+ s) = s.
Proof.
  intros Hrun Hdisj (c & s' & -> & Hc).
  induction run as [|a run IH]; simpl in *.
  - rewrite ?app_empty_l. simpl. by rewrite (Hdisj c Hc).
  - apply andb_true_iff in Hrun as [Ha Hrun].
    rewrite ?app_cons. simpl. rewrite Ha. auto.
Qed.

Lemma skip_while_split p s :
  ∃ run, s = run +:+ skip_while p s ∧ all_in p run = true.
Proof.
  induction s as [|c s (run & Hs & Hrun)]; simpl.
  - by exists "".
  - destruct (p c) eqn:Hc.
    + exists (String c run). rewrite app_cons, <-Hs. simpl. by rewrite Hc.
    + by exists "".
Qed.

Lemma final_not_param c : class_final c = true → class_param c = false.
Proof. by destruct c as [[] [] [] [] [] [] [] []]; vm_compute. Qed.

Lemma final_not_inter c : class_final c = true → class_inter c = false.
Proof. by destruct c as [[] [] [] [] [] [] [] []]; vm_compute. Qed.

Lemma inter_not_param c : class_inter c = true → class_param c = false.
Proof. by destruct c as [[] [] [] [] [] [] [] []]; vm_compute. Qed.

Lemma bracket_not_Fe : class_Fe "[" = false.
Proof. reflexivity. Qed.

(** The executable matcher finds the match of the pattern at the head of
    the text whenever there is one ... *)
Lemma ansi_escape_match_complete m rest :
  re_match ansi_escape m → ansi_escape_match (m +:+ rest) = Some rest.
Proof.
  intros (e & m1 & -> & He & H)%re_match_Seq_inv.
  apply re_match_Chr_inv in He as ->.
  apply re_match_Alt_inv in H as [H|H].
  - apply re_match_Cls_inv in H as (c & -> & Hc).
    str_norm. simpl. by rewrite Hc.
  - apply re_match_Seq_inv in H as (b & m2 & -> & Hb & H).
    apply re_match_Chr_inv in Hb as ->.
    apply re_match_Seq_inv in H as (ps & m3 & -> & Hps & H).
    apply re_match_Seq_inv in H as (ins & fs & -> & His & Hf).
    apply re_match_Cls_inv in Hf as (f & -> & Hf).
    apply re_match_Star_Cls in Hps, His.
    str_norm. simpl.
    assert (skip_while class_param (ps +:+ ins +:+ String f rest)
            = ins +:+ String f rest) as ->.
    { destruct ins as [|i ins'].
      - str_norm.
        eapply skip_while_run; eauto using final_not_param.
      - simpl in His. apply andb_true_iff in His as [Hi _].
        str_norm.
        eapply skip_while_run; eauto using inter_not_param. }
    rewrite (skip_while_run class_inter class_final);
      eauto using final_not_inter.
    by rewrite Hf.
Qed.

(** ... and what it consumes is a match of the pattern. *)
Lemma ansi_escape_match_sound s rest :
  ansi_escape_match s = Some rest →
  ∃ m, s = m +:+ rest ∧ re_match ansi_escape m.
Proof.
  destruct s as [|e [|c s]]; simpl; try done.
  destruct (Ascii.eqb_spec e ESC) as [->|]; simpl; [|done].
  destruct (class_Fe c) eqn:HFe.
  { intros [= <-]. exists (String ESC (String c "")). split; [done|].
    change (String ESC (String c "")) with (String ESC "" +:+ String c "").
    constructor; [constructor|]. apply M_AltL. by constructor. }
  destruct (Ascii.eqb_spec c "[") as [->|]; [|done].
  destruct (skip_while_split class_param s) as (ps & Hs & Hps).
  destruct (skip_while_split class_inter (skip_while class_param s))
    as (ins & Hs' & His).
  destruct (skip_while class_inter _) as [|f r]; [done|].
  destruct (class_final f) eqn:Hf; [|done].
  intros [= <-].
  exists (String ESC "" +:+ String "[" "" +:+ ps +:+ ins +:+ String f "").
  split.
  - rewrite Hs at 1. rewrite Hs' at 1. by str_norm.
  - constructor; [constructor|]. apply M_AltR.
    constructor; [constructor|].
    constructor; [by apply re_match_Star_Cls|].
    constructor; [by apply re_match_Star_Cls|by constructor].
Qed.

(** At most one prefix of a text matches the pattern, so the order in
    which a matcher tries the alternatives and the lengths of the starred
    runs is of no consequence. *)
Lemma ansi_escape_prefix_unique m1 r1 m2 r2 :
  re_match ansi_escape m1 → re_match ansi_escape m2 →
  m1 +:+ r1 = m2 +:+ r2 → m1 = m2 ∧ r1 = r2.
Proof.
  intros H1 H2 Heq.
  pose proof (ansi_escape_match_complete m1 r1 H1) as E1.
  pose proof (ansi_escape_match_complete m2 r2 H2) as E2.
  rewrite Heq, E2 in E1. simplify_eq. split; [|done].
  by eapply app_inv_tail_str.
Qed.

(** ** Sanitizing *)

Lemma strip_ansi_codes_cons c s :
  strip_ansi_codes (String c s) =
  match ansi_escape_match (String c s) with
  | Some rest => strip_ansi_codes rest
  | None => String c (strip_ansi_codes s)
  end.
Proof.
  simp strip_ansi_codes.
  generalize (inspect (ansi_escape_match (String c s))).
  intros [[rest|] H]; simp strip_ansi_codes; by rewrite H.
Qed.

(** A text without the escape character comes through unchanged. *)
Lemma strip_ansi_codes_plain s :
  py_in (String ESC "") s = false → strip_ansi_codes s = s.
Proof.
  induction s as [|c s IH]; [done|].
  simpl. intros [Hc Hs]%orb_false_iff.
  rewrite strip_ansi_codes_cons.
  assert (ansi_escape_match (String c s) = None) as ->.
  { destruct s as [|c' s]; [done|]. simpl.
    destruct (Ascii.eqb_spec c ESC) as [->|]; [|done].
    destruct (String c' s); done. }
  by rewrite IH.
Qed.

(** Text before the first escape character is kept as it is. *)
Lemma strip_ansi_codes_plain_app a s :
  py_in (String ESC "") a = false →
  strip_ansi_codes (a +:+ s) = a +:+ strip_ansi_codes s.
Proof.
  induction a as [|c a IH]; [done|].
  simpl. intros [Hc Ha]%orb_false_iff.
  rewrite !app_cons, strip_ansi_codes_cons.
  assert (ansi_escape_match (String c (a +:+ s)) = None) as ->.
  { destruct (a +:+ s) as [|c' s']; [done|]. simpl.
    destruct (Ascii.eqb_spec c ESC) as [->|]; [|done].
    destruct a; done. }
  by rewrite IH.
Qed.

(** An escape sequence, as the pattern defines it, is dropped. *)
Lemma strip_ansi_codes_escape m s :
  re_match ansi_escape m → strip_ansi_codes (m +:+ s) = strip_ansi_codes s.
Proof.
  intros Hm. pose proof (ansi_escape_match_complete m s Hm) as E.
  destruct (m +:+ s) as [|c t] eqn:Hms; [done|].
  by rewrite strip_ansi_codes_cons, E.
Qed.

(** A Select Graphic Rendition sequence such as [ESC[31m] is an escape
    sequence of the pattern. *)
Lemma sgr_is_escape params :
  all_in class_param params = true →
  re_match ansi_escape (String ESC "" +:+ "[" +:+ params +:+ "" +:+ "m").
Proof.
  intros Hp. constructor; [constructor|]. apply M_AltR.
  constructor; [constructor|].
  constructor; [by apply re_match_Star_Cls|].
  constructor; [constructor|by constructor].
Qed.

(** An escape sequence cut short by another one is not a match: its
    characters stay, and the complete sequence after it goes. *)
Example strip_ansi_codes_unterminated :
  strip_ansi_codes (String ESC "[31" +:+ String ESC "[0mX")
  = String ESC "[31X".
Proof. vm_compute. reflexivity. Qed.

Example strip_ansi_codes_uncovers_keyword :
  py_in "ERROR" ("ER" +:+ String ESC "[0mROR") = false ∧
  py_in "ERROR" (strip_ansi_codes ("ER" +:+ String ESC "[0mROR")) = true.
Proof. split; vm_compute; reflexivity. Qed.

(** ** Running the test report generator *)

Lemma read_content_run env log_file w :
  read_content env log_file w =
  (Ok (match open_read env log_file with
       | Ok raw => strip_ansi_codes raw
       | Raise e => "Error reading file: " +:+ exc_str e
       end), w).
Proof.
  unfold read_content, try_except, mbind, M_bind, lift, mret, M_ret, Exception.
  by destruct (open_read env log_file).
Qed.

Lemma scan_log_file_run env log_file w :
  scan_log_file env log_file w = (Ok (test_data env log_file), w).
Proof.
  unfold scan_log_file, mbind, M_bind. by rewrite read_content_run.
Qed.

Lemma mapM_scan_run env log_files w :
  mapM (scan_log_file env) log_files w = (Ok (test_data env <$> log_files), w).
Proof.
  induction log_files as [|f l IH]; [done|].
  simpl. unfold mbind, M_bind at 1. rewrite scan_log_file_run.
  unfold M_bind at 1. by rewrite IH.
Qed.

Lemma record_status_test_element args t :
  record_status (test_element args t) = Some (status t).
Proof. unfold record_status. simpl. apply lookup_singleton_eq. Qed.

Lemma record_name_test_element args t :
  record_name (test_element args t) = Some (name t).
Proof. reflexivity. Qed.

Lemma record_output_test_element args t :
  record_output (test_element args t) = Some (output t).
Proof. reflexivity. Qed.

Lemma findall_test_elements args (tests : list TestData) :
  filter (λ c, tag c = "Test") (test_element args <$> tests)
  = test_element args <$> tests.
Proof.
  induction tests as [|t l IH]; [done|].
  rewrite fmap_cons, filter_cons_True by done. by rewrite IH.
Qed.

Lemma findall_test_list_entries args (tests : list TestData) :
  omap text (filter (λ c, tag c = "Test") (test_list_entry args <$> tests))
  = (λ t, "./" +:+ log_dir args +:+ "/" +:+ name t) <$> tests.
Proof.
  induction tests as [|t l IH]; [done|].
  rewrite !fmap_cons, filter_cons_True by done. simpl. f_equal. apply IH.
Qed.

(** What a run of the generator leaves behind: it returns normally, has
    read the clock three times, has printed the warning (when there is no
    log file) and the confirmation, and has written [Test.xml] with one
    list entry and one record per log file, in the order of the sorted
    list. *)
Lemma generate_test_xml_run env args bn sys_info w :
  build_name args = Some bn →
  ∃ w' site,
    generate_test_xml env args sys_info w = (Ok (), w') ∧
    files w' = <["Test.xml" := mk_doc false site]> (files w) ∧
    stdout w' = stdout w ++
      (if bool_decide (list_sort (glob_glob env (os_path.join (log_dir args) "*.log")) = [])
       then ["Warning: No log files found in " +:+ log_dir args] else [])
      ++ ["Generated Test.xml"] ∧
    attrib site = set_all sys_info (attrib (site_element bn args ∅ [])) ∧
    test_records site = test_element args <$>
      (test_data env <$>
         list_sort (glob_glob env (os_path.join (log_dir args) "*.log"))) ∧
    test_list site = (λ f, "./" +:+ log_dir args +:+ "/" +:+ os_path.basename f) <$>
         list_sort (glob_glob env (os_path.join (log_dir args) "*.log")).
Proof.
  intros Hbn. unfold generate_test_xml.
  set (log_files := list_sort _).
  unfold mbind, M_bind, time_time at 1.
  assert (∀ w0, (if bool_decide (log_files = [])
           then print ("Warning: No log files found in " +:+ log_dir args)
           else mret ()) w0
          = (Ok (), {| stdout := stdout w0 ++
                         (if bool_decide (log_files = [])
                          then ["Warning: No log files found in " +:+ log_dir args]
                          else []);
                       files := files w0;
                       clock_reads := clock_reads w0 |})) as Hwarn.
  { intros [o f c]. unfold print, mret, M_ret. case_bool_decide; simpl; [done|].
    by rewrite app_nil_r. }
  rewrite Hwarn, mapM_scan_run. unfold time_time. rewrite Hbn. simpl.
  eexists _, _. split; [reflexivity|]. simpl.
  split_and!; try done.
  - by rewrite <-app_assoc.
  - unfold test_records, find, findall. simpl.
    rewrite !filter_cons_False by done.
    rewrite filter_app, findall_test_elements.
    rewrite !filter_cons_False by done. by rewrite filter_nil, app_nil_r.
  - unfold test_list, find, findall. simpl.
    rewrite findall_test_list_entries.
    by rewrite <-list_fmap_compose.
Qed.

Lemma test_xml_written w w' site :
  files w' = <["Test.xml" := mk_doc false site]> (files w) →
  test_xml w' = Some site.
Proof. intros Hf. unfold test_xml. by rewrite Hf, lookup_insert_eq. Qed.

Lemma list_sort_length l : length (list_sort l) = length l.
Proof. apply Permutation_length, merge_sort_Permutation. Qed.

Lemma py_in_error_prefix msg :
  py_in "ERROR" ("Error reading file: " +:+ msg) = py_in "ERROR" msg.
Proof. str_norm. simpl. unfold startswith. simpl. reflexivity. Qed.

(** ** Classification *)

(** The record of the [i]-th file of the sorted list. *)
Lemma test_record_lookup env args (log_files : list string) i f :
  log_files !! i = Some f →
  (test_element args <$> (test_data env <$> log_files)) !! i
  = Some (test_element args (test_data env f)).
Proof. intros Hi. by rewrite !list_lookup_fmap, Hi. Qed.

(** C1.  Every log file the generator processes gets one record in
    [Test.xml], at the place the file has in the sorted list and under
    the file's name.  The record embeds the sanitized content of that
    file: what [open] and [read] gave for it with the escape sequences
    stripped, or the description of the error when the file could not be
    read.  Its status is ["failed"] if the literal, case-sensitive
    substring ["ERROR"] occurs in that content and ["passed"] otherwise.
    So the record of a file that reads ["ERROR: boom"] is ["failed"], the
    record of a file that reads ["all good"] is ["passed"], and so is the
    record of one that reads the lower-case ["error: boom"]. *)
Theorem C1_status_from_error_keyword env args bn sys_info w :
  build_name args = Some bn →
  ∃ w' site,
    generate_test_xml env args sys_info w = (Ok (), w') ∧
    test_xml w' = Some site ∧
    length (test_records site)
      = length (glob_glob env (os_path.join (log_dir args) "*.log")) ∧
    (∀ r, r ∈ test_records site →
       ∃ content,
         record_output r = Some content ∧
         (substring_of "ERROR" content → record_status r = Some "failed") ∧
         (¬ substring_of "ERROR" content → record_status r = Some "passed")) ∧
    (∀ i f,
       list_sort (glob_glob env (os_path.join (log_dir args) "*.log")) !! i
         = Some f →
       ∃ r, test_records site !! i = Some r ∧
            record_name r = Some (os_path.basename f) ∧
            (∀ raw, open_read env f = Ok raw →
               record_output r = Some (strip_ansi_codes raw) ∧
               (substring_of "ERROR" (strip_ansi_codes raw) →
                record_status r = Some "failed") ∧
               (¬ substring_of "ERROR" (strip_ansi_codes raw) →
                record_status r = Some "passed")) ∧
            (∀ e, open_read env f = Raise e →
               record_output r = Some ("Error reading file: " +:+ exc_str e) ∧
               (substring_of "ERROR" ("Error reading file: " +:+ exc_str e) →
                record_status r = Some "failed") ∧
               (¬ substring_of "ERROR" ("Error reading file: " +:+ exc_str e) →
                record_status r = Some "passed")) ∧
            (open_read env f = Ok "ERROR: boom" →
             record_status r = Some "failed") ∧
            (open_read env f = Ok "all good" →
             record_status r = Some "passed") ∧
            (open_read env f = Ok "error: boom" →
             record_status r = Some "passed")).
Proof.
  intros Hbn.
  destruct (generate_test_xml_run env args bn sys_info w Hbn)
    as (w' & site & Hrun & Hfiles & _ & _ & Hrec & _).
  exists w', site. split_and!; [done|by eapply test_xml_written| | |].
  - by rewrite Hrec, !length_fmap, list_sort_length.
  - intros r Hr. rewrite Hrec in Hr.
    apply list_elem_of_fmap in Hr as (t & -> & Ht).
    apply list_elem_of_fmap in Ht as (f & -> & _).
    exists (output (test_data env f)).
    rewrite record_output_test_element, record_status_test_element.
    split; [done|]. simpl. split.
    + intros Hin%py_in_spec. by rewrite Hin.
    + intros Hin%py_in_false. by rewrite Hin.
  - intros i f Hi. eexists. rewrite Hrec.
    split; [by apply test_record_lookup|].
    rewrite record_output_test_element, record_status_test_element,
      record_name_test_element.
    split; [done|]. unfold test_data. split_and!.
    + intros raw ->. simpl. split_and!; [done| |].
      * intros Hin%py_in_spec. by rewrite Hin.
      * intros Hin%py_in_false. by rewrite Hin.
    + intros e ->.
      remember ("Error reading file: " +:+ exc_str e) as content eqn:Hc.
      simpl. split_and!; [done| |].
      * intros Hin%py_in_spec. by rewrite Hin.
      * intros Hin%py_in_false. by rewrite Hin.
    + by intros ->.
    + by intros ->.
    + by intros ->.
Qed.

Lemma C1_witness :
  ∃ w' site r,
    generate_test_xml Fixture.env Fixture.args ∅ initial_world = (Ok (), w') ∧
    test_xml w' = Some site ∧
    length (test_records site) = 3%nat ∧
    test_records site !! 0%nat = Some r ∧
    record_name r = Some "a.log" ∧
    record_output r = Some "ERROR: boom" ∧
    record_status r = Some "failed".
Proof.
  destruct (C1_status_from_error_keyword Fixture.env Fixture.args "nightly"
              ∅ initial_world eq_refl) as (w' & site & H1 & H2 & H3 & _ & H5).
  destruct (H5 0%nat "logs/a.log" eq_refl)
    as (r & Hr & Hn & Hraw & _ & Hboom & _).
  exists w', site, r.
  split; [exact H1|]. split; [exact H2|]. split; [exact H3|].
  split; [exact Hr|]. split; [exact Hn|].
  split; [exact (proj1 (Hraw _ eq_refl))|exact (Hboom eq_refl)].
Defined.

(** C2.  For a log file that is read successfully the record embeds the
    content with the ANSI escape sequences stripped, and the ["ERROR"]
    rule is applied to that stripped content: a file whose stripped
    content has no ["ERROR"] is ["passed"] whatever escape sequences the
    raw content has.  Stripping keeps the text before an escape sequence
    and drops the sequence; raw content [ESC[31mOK ESC[0m] is stripped to
    ["OK"] and classified ["passed"]. *)
Theorem C2_escapes_stripped_before_classification env args bn sys_info w :
  build_name args = Some bn →
  (∃ w' site,
     generate_test_xml env args sys_info w = (Ok (), w') ∧
     test_xml w' = Some site ∧
     ∀ i f raw,
       list_sort (glob_glob env (os_path.join (log_dir args) "*.log")) !! i
         = Some f →
       open_read env f = Ok raw →
       ∃ r, test_records site !! i = Some r ∧
            record_output r = Some (strip_ansi_codes raw) ∧
            record_status r =
              Some (if py_in "ERROR" (strip_ansi_codes raw)
                    then "failed" else "passed") ∧
            (¬ substring_of "ERROR" (strip_ansi_codes raw) →
             record_status r = Some "passed") ∧
            (raw = Fixture.colored_ok → record_status r = Some "passed")) ∧
  (∀ a m b, py_in (String ESC "") a = false → re_match ansi_escape m →
     strip_ansi_codes (a +:+ m +:+ b) = a +:+ strip_ansi_codes b) ∧
  strip_ansi_codes Fixture.colored_ok = "OK".
Proof.
  intros Hbn. split_and!.
  - destruct (generate_test_xml_run env args bn sys_info w Hbn)
      as (w' & site & Hrun & Hfiles & _ & _ & Hrec & _).
    exists w', site. split_and!; [done|by eapply test_xml_written|].
    intros i f raw Hi Hraw. eexists. rewrite Hrec.
    split; [by apply test_record_lookup|].
    rewrite record_output_test_element, record_status_test_element.
    unfold test_data. rewrite Hraw. simpl. split_and!; [done..| |].
    + intros Hin%py_in_false. by rewrite Hin.
    + by intros ->.
  - intros a m b Ha Hm.
    by rewrite strip_ansi_codes_plain_app, strip_ansi_codes_escape.
  - reflexivity.
Qed.

Lemma C2_witness :
  ∃ w' site r,
    generate_test_xml Fixture.env Fixture.args ∅ initial_world = (Ok (), w') ∧
    test_xml w' = Some site ∧
    test_records site !! 1%nat = Some r ∧
    record_output r = Some "OK" ∧
    record_status r = Some "passed".
Proof.
  destruct (C2_escapes_stripped_before_classification Fixture.env Fixture.args
              "nightly" ∅ initial_world eq_refl)
    as [(w' & site & H1 & H2 & H3) _].
  destruct (H3 1%nat "logs/b.log" Fixture.colored_ok eq_refl eq_refl)
    as (r & Hr & Ho & _ & _ & Hs).
  exists w', site, r.
  split; [exact H1|]. split; [exact H2|]. split; [exact Hr|].
  split; [exact Ho|exact (Hs eq_refl)].
Defined.

(** ** Unreadable log files *)

(** C4.  A log file that cannot be opened does not abort the generator:
    the run returns normally with [Test.xml] written, there is one record
    per log file, the record of the unreadable file embeds the synthetic
    description of the error, and the files after it (and before it) have
    their records as usual. *)
Theorem C4_unreadable_file_is_tolerated env args bn sys_info w :
  build_name args = Some bn →
  ∃ w' site,
    generate_test_xml env args sys_info w = (Ok (), w') ∧
    test_xml w' = Some site ∧
    length (test_records site)
      = length (glob_glob env (os_path.join (log_dir args) "*.log")) ∧
    (∀ i f e,
       list_sort (glob_glob env (os_path.join (log_dir args) "*.log")) !! i
         = Some f →
       open_read env f = Raise e →
       ∃ r, test_records site !! i = Some r ∧
            record_name r = Some (os_path.basename f) ∧
            record_output r = Some ("Error reading file: " +:+ exc_str e)) ∧
    (∀ i f raw,
       list_sort (glob_glob env (os_path.join (log_dir args) "*.log")) !! i
         = Some f →
       open_read env f = Ok raw →
       ∃ r, test_records site !! i = Some r ∧
            record_name r = Some (os_path.basename f) ∧
            record_output r = Some (strip_ansi_codes raw)).
Proof.
  intros Hbn.
  destruct (generate_test_xml_run env args bn sys_info w Hbn)
    as (w' & site & Hrun & Hfiles & _ & _ & Hrec & _).
  exists w', site. split_and!; [done|by eapply test_xml_written| | |].
  - by rewrite Hrec, !length_fmap, list_sort_length.
  - intros i f e Hi He. eexists. rewrite Hrec.
    split; [by apply test_record_lookup|].
    rewrite record_output_test_element, record_name_test_element.
    unfold test_data. by rewrite He.
  - intros i f raw Hi Hraw. eexists. rewrite Hrec.
    split; [by apply test_record_lookup|].
    rewrite record_output_test_element, record_name_test_element.
    unfold test_data. by rewrite Hraw.
Qed.

Lemma C4_witness :
  ∃ w' site r,
    generate_test_xml Fixture.env Fixture.args ∅ initial_world = (Ok (), w') ∧
    test_xml w' = Some site ∧
    length (test_records site) = 3%nat ∧
    test_records site !! 2%nat = Some r ∧
    record_name r = Some "c.log" ∧
    record_output r = Some
      "Error reading file: [Errno 13] Permission denied: 'logs/c.log'".
Proof.
  destruct (C4_unreadable_file_is_tolerated Fixture.env Fixture.args
              "nightly" ∅ initial_world eq_refl)
    as (w' & site & H1 & H2 & H3 & H4 & _).
  destruct (H4 2%nat "logs/c.log" Fixture.denied eq_refl eq_refl)
    as (r & Hr & Hn & Ho).
  exists w', site, r.
  split; [exact H1|]. split; [exact H2|]. split; [exact H3|].
  split; [exact Hr|]. split; [exact Hn|exact Ho].
Defined.

(** C9.  When opening a log file raises an exception, the record embeds
    exactly ["Error reading file: "] followed by the text of the
    exception; the text is not sanitized (an escape sequence in it stays,
    where sanitizing would have removed it); the status comes from the
    same ["ERROR"] rule applied to this content, so the record is
    ["passed"] whenever the text of the exception has no ["ERROR"], and
    ["failed"] when it has. *)
Theorem C9_synthetic_content_classified env args bn sys_info w :
  build_name args = Some bn →
  (∃ w' site,
     generate_test_xml env args sys_info w = (Ok (), w') ∧
     test_xml w' = Some site ∧
     ∀ i f e,
       list_sort (glob_glob env (os_path.join (log_dir args) "*.log")) !! i
         = Some f →
       open_read env f = Raise e →
       ∃ r, test_records site !! i = Some r ∧
            record_output r = Some ("Error reading file: " +:+ exc_str e) ∧
            record_status r =
              Some (if py_in "ERROR" ("Error reading file: " +:+ exc_str e)
                    then "failed" else "passed") ∧
            (¬ substring_of "ERROR" (exc_str e) →
             record_status r = Some "passed") ∧
            (substring_of "ERROR" (exc_str e) →
             record_status r = Some "failed")) ∧
  strip_ansi_codes ("Error reading file: " +:+ Fixture.colored_ok)
    ≠ "Error reading file: " +:+ Fixture.colored_ok.
Proof.
  intros Hbn. split; [|done].
  destruct (generate_test_xml_run env args bn sys_info w Hbn)
    as (w' & site & Hrun & Hfiles & _ & _ & Hrec & _).
  exists w', site. split_and!; [done|by eapply test_xml_written|].
  intros i f e Hi He. eexists. rewrite Hrec.
  split; [by apply test_record_lookup|].
  rewrite record_output_test_element, record_status_test_element.
  unfold test_data. rewrite He.
  pose proof (py_in_error_prefix (exc_str e)) as Hpre.
  remember ("Error reading file: " +:+ exc_str e) as content eqn:Hc.
  simpl. rewrite Hpre. split_and!; [done..| |].
  - intros Hin%py_in_false. by rewrite Hin.
  - intros Hin%py_in_spec. by rewrite Hin.
Qed.

Lemma C9_witness :
  ∃ w' site r,
    generate_test_xml Fixture.env Fixture.args ∅ initial_world = (Ok (), w') ∧
    test_xml w' = Some site ∧
    test_records site !! 2%nat = Some r ∧
    record_output r = Some
      "Error reading file: [Errno 13] Permission denied: 'logs/c.log'" ∧
    record_status r = Some "passed".
Proof.
  destruct (C9_synthetic_content_classified Fixture.env Fixture.args
              "nightly" ∅ initial_world eq_refl)
    as [(w' & site & H1 & H2 & H3) _].
  destruct (H3 2%nat "logs/c.log" Fixture.denied eq_refl eq_refl)
    as (r & Hr & Ho & Hs & _).
  exists w', site, r.
  split; [exact H1|]. split; [exact H2|]. split; [exact Hr|].
  split; [exact Ho|exact Hs].
Defined.

(** ** The build report *)

(** What a run of the build report generator leaves behind: the clock
    has been read once; then, if the document parses, the file and the
    confirmation, and otherwise the parser's exception and nothing
    else. *)
Lemma generate_build_xml_run env args bn sys_info w :
  build_name args = Some bn →
  generate_build_xml env args sys_info w =
  let site :=
    site_element bn args sys_info
      [build_element env (clock env (clock_reads w))] in
  match minidom_parse env site with
  | Ok _ =>
      (Ok (), {| stdout := stdout w ++ ["Generated Build.xml"];
                 files := <["Build.xml" := mk_doc true site]> (files w);
                 clock_reads := S (clock_reads w) |})
  | Raise e =>
      (Raise e, {| stdout := stdout w;
                   files := files w;
                   clock_reads := S (clock_reads w) |})
  end.
Proof.
  intros Hbn. unfold generate_build_xml, mbind, M_bind, time_time, lift.
  rewrite Hbn. simpl. by destruct (minidom_parse env _).
Qed.

Lemma tags_build_site bn args sys_info env t :
  tags (site_element bn args sys_info [build_element env t])
  = [ "Site"; "Build"; "StartDateTime"; "StartBuildTime"; "BuildCommand";
      "EndDateTime"; "EndBuildTime"; "ElapsedMinutes" ].
Proof. reflexivity. Qed.

(** C7.  The document the build report generator builds has one [Build]
    element whose end timestamp equals its start timestamp in both forms
    (the date text and the epoch number, all taken from one reading of
    the clock) and whose elapsed minutes are ["0"], and none of its
    elements is a [Warning] or an [Error].  Every build report that is
    generated is this document: when the document parses, the generator
    returns with it in [Build.xml]; when the parser raises, the generator
    raises the same exception and writes and prints nothing. *)
Theorem C7_build_is_instantaneous env args bn sys_info w :
  build_name args = Some bn →
  let site :=
    site_element bn args sys_info
      [build_element env (clock env (clock_reads w))] in
  (∃ build,
     find "Build" site = Some build ∧
     findall "Build" site = [build] ∧
     findtext "StartDateTime" build
       = Some (time_ctime env (clock env (clock_reads w))) ∧
     findtext "EndDateTime" build = findtext "StartDateTime" build ∧
     findtext "StartBuildTime" build
       = Some (str_int (clock env (clock_reads w))) ∧
     findtext "EndBuildTime" build = findtext "StartBuildTime" build ∧
     findtext "ElapsedMinutes" build = Some "0") ∧
  ("Warning" ∉ tags site) ∧
  ("Error" ∉ tags site) ∧
  (minidom_parse env site = Ok () →
   ∃ w', generate_build_xml env args sys_info w = (Ok (), w') ∧
         build_xml w' = Some site) ∧
  (∀ w', generate_build_xml env args sys_info w = (Ok (), w') →
         build_xml w' = Some site) ∧
  (∀ e, minidom_parse env site = Raise e →
   ∃ w', generate_build_xml env args sys_info w = (Raise e, w') ∧
         files w' = files w ∧ stdout w' = stdout w).
Proof.
  intros Hbn site.
  pose proof (generate_build_xml_run env args bn sys_info w Hbn) as Hrun.
  fold site in Hrun. simpl in Hrun.
  split_and!.
  - eexists. split; [reflexivity|]. by split_and!.
  - unfold site. rewrite tags_build_site, !not_elem_of_cons.
    split_and!; try done. apply not_elem_of_nil.
  - unfold site. rewrite tags_build_site, !not_elem_of_cons.
    split_and!; try done. apply not_elem_of_nil.
  - intros Hparse. rewrite Hparse in Hrun. eexists. split; [exact Hrun|].
    unfold build_xml. simpl. by rewrite lookup_insert_eq.
  - intros w' Hw'. rewrite Hrun in Hw'.
    destruct (minidom_parse env site) as [[]|e]; [|done].
    injection Hw' as <-. unfold build_xml. simpl. by rewrite lookup_insert_eq.
  - intros e Hparse. rewrite Hparse in Hrun. eexists. by split; [exact Hrun|].
Qed.

Lemma C7_witness :
  ∃ w' site build,
    generate_build_xml Fixture.env Fixture.args ∅ initial_world = (Ok (), w') ∧
    build_xml w' = Some site ∧
    find "Build" site = Some build ∧
    findtext "StartDateTime" build = Some "ctime 1700000000" ∧
    findtext "EndDateTime" build = Some "ctime 1700000000" ∧
    findtext "StartBuildTime" build = Some "1700000000" ∧
    findtext "EndBuildTime" build = Some "1700000000" ∧
    findtext "ElapsedMinutes" build = Some "0".
Proof.
  destruct (C7_build_is_instantaneous Fixture.env Fixture.args "nightly"
              ∅ initial_world eq_refl)
    as ((build & H3 & _ & H4 & H5 & H6 & H7 & H8) & _ & _ & Hgen & _).
  destruct (Hgen eq_refl) as (w' & H1 & H2).
  exists w'. eexists. exists build.
  split; [exact H1|]. split; [exact H2|]. split; [exact H3|].
  split; [exact H4|]. split; [exact (eq_trans H5 H4)|].
  split; [exact H6|]. split; [exact (eq_trans H7 H6)|exact H8].
Defined.

(** ** Host information *)

Ltac run_host_info :=
  unfold get_system_info, try_except, mbind, M_bind, lift, mret, M_ret;
  simpl.

Ltac solve_host_info_keys :=
  unfold host_info_keys; rewrite ?dom_insert_L, ?dom_empty_L;
  simpl; set_solver.

(** A total below 2^53 is a double, and the division is exact. *)
Lemma nearest_double_small t : 0 ≤ t < 2 ^ 53 → nearest_double t = t.
Proof.
  intros [H0 H53]. unfold nearest_double.
  destruct (decide (t = 0)) as [->|Hne]; [done|].
  assert (Z.log2 (Z.abs t) < 53) as Hlog.
  { apply Z.log2_lt_pow2; lia. }
  destruct (Z.leb_spec (Z.log2 (Z.abs t) + 1 - 53) 0); [done|lia].
Qed.

Lemma megabytes_small t :
  0 ≤ t < 2 ^ 53 → megabytes t = Ok (t / 1048576).
Proof.
  intros Ht. unfold megabytes. rewrite nearest_double_small by done.
  assert (2 ^ 53 < 2 ^ 1024 * (1024 * 1024)) as Hbig by reflexivity.
  destruct (Z.leb_spec (2 ^ 1024 * (1024 * 1024)) (Z.abs t)); [lia|].
  f_equal. apply Z.quot_div_nonneg; lia.
Qed.

(** From 2^53 on the total is rounded before it is divided. *)
Example megabytes_rounds :
  megabytes (2 ^ 54 - 1) = Ok 17179869184 ∧
  (2 ^ 54 - 1) / 1048576 = 17179869183 ∧
  megabytes (2 ^ 53 + 2 ^ 20 - 1) = Ok (2 ^ 33 + 1) ∧
  (2 ^ 53 + 2 ^ 20 - 1) / 1048576 = 2 ^ 33.
Proof. by vm_compute. Qed.

Lemma dom_host_info env l p m : dom (host_info env l p m) = host_info_keys.
Proof. unfold host_info. solve_host_info_keys. Qed.

(** The collector's outcome follows the outcome of the [try] block. *)
Lemma get_system_info_query env w :
  get_system_info env w =
  match psutil_query env with
  | Ok (l, p, m) =>
      (Ok (host_info env (str_opt_int l) (str_opt_int p) (str_int m)), w)
  | Raise e =>
      if is_ImportError e then (Ok (host_info env "1" "1" "1024"), w)
      else (Raise e, w)
  end.
Proof.
  unfold psutil_query. run_host_info.
  destruct (import_psutil env) as [ps|e]; simpl;
    [|by destruct (is_ImportError e)].
  destruct (cpu_count ps true) as [l|e]; simpl;
    [|by destruct (is_ImportError e)].
  destruct (cpu_count ps false) as [p|e]; simpl;
    [|by destruct (is_ImportError e)].
  destruct (virtual_memory_total ps) as [t|e]; simpl;
    [|by destruct (is_ImportError e)].
  destruct (megabytes t) as [m|e]; simpl;
    [done|by destruct (is_ImportError e)].
Qed.

(** Whenever the collector returns, the mapping has the fixed key set
    and the world is as it was. *)
Lemma get_system_info_keys env w info w' :
  get_system_info env w = (Ok info, w') →
  w' = w ∧ dom info = host_info_keys.
Proof.
  rewrite get_system_info_query.
  destruct (psutil_query env) as [[[l p] m]|e].
  - intros [= <- <-]. split; [done|apply dom_host_info].
  - destruct (is_ImportError e); [|done].
    intros [= <- <-]. split; [done|apply dom_host_info].
Qed.

(** Without psutil the collector returns the placeholders. *)
Lemma get_system_info_import_error env w e :
  import_psutil env = Raise e → is_ImportError e = true →
  ∃ info, get_system_info env w = (Ok info, w) ∧ placeholders info.
Proof.
  intros He Himp. rewrite get_system_info_query. unfold psutil_query.
  rewrite He, Himp. eexists. split; [reflexivity|]. by split_and!.
Qed.

Example get_system_info_with_psutil :
  ∃ info,
    get_system_info (Fixture.with_psutil (Ok Fixture.psutil_ok)) initial_world
      = (Ok info, initial_world) ∧
    info !! "NumberOfLogicalCPU" = Some "16" ∧
    info !! "NumberOfPhysicalCPU" = Some "8" ∧
    info !! "TotalPhysicalMemory" = Some "65536" ∧
    info !! "Is64Bits" = Some "1".
Proof. eexists. split; [reflexivity|]. by vm_compute. Qed.

(** With psutil installed and a query that raises something other than
    [ImportError], here an [OSError] from reading the memory statistics,
    the exception leaves [get_system_info]. *)
Lemma C6_query_error_escapes :
  query_fails (Fixture.with_psutil (Ok Fixture.psutil_broken)) ∧
  get_system_info (Fixture.with_psutil (Ok Fixture.psutil_broken)) initial_world
    = (Raise Fixture.meminfo_missing, initial_world) ∧
  ¬ never_fails (Fixture.with_psutil (Ok Fixture.psutil_broken)) initial_world.
Proof.
  split_and!.
  - right. right. by eexists.
  - reflexivity.
  - intros (info & w' & Hrun & _). discriminate Hrun.
Qed.

(** C6, amended.  The collector returns a mapping with the fixed key set
    whenever it returns, and leaves the world as it was.  When the import
    of psutil, or one of the steps on it (the two CPU counts, the memory
    statistics, the division into megabytes), raises an [ImportError],
    which includes [ModuleNotFoundError], it returns with the
    placeholders ["1"], ["1"] and ["1024"] for the CPU counts and the
    memory size.  An exception of any other class raised by the import or
    by one of these steps is not caught and reaches the caller.  When all
    steps return, the mapping has their values as text; the memory size
    is the total divided as doubles and truncated, which is the whole
    quotient by 1048576 for a total below 2^53. *)
Theorem C6_fallback_on_import_error env w :
  (∀ e, import_psutil env = Raise e → is_ImportError e = true →
     ∃ info, get_system_info env w = (Ok info, w) ∧
             dom info = host_info_keys ∧ placeholders info) ∧
  (∀ e, psutil_query env = Raise e → is_ImportError e = true →
     ∃ info, get_system_info env w = (Ok info, w) ∧
             dom info = host_info_keys ∧ placeholders info) ∧
  (∀ info w', get_system_info env w = (Ok info, w') →
     w' = w ∧ dom info = host_info_keys) ∧
  (∀ ps l p t m, import_psutil env = Ok ps →
     cpu_count ps true = Ok l → cpu_count ps false = Ok p →
     virtual_memory_total ps = Ok t → megabytes t = Ok m →
     ∃ info, get_system_info env w = (Ok info, w) ∧
             info !! "NumberOfLogicalCPU" = Some (str_opt_int l) ∧
             info !! "NumberOfPhysicalCPU" = Some (str_opt_int p) ∧
             info !! "TotalPhysicalMemory" = Some (str_int m)) ∧
  (∀ t, 0 ≤ t < 2 ^ 53 → megabytes t = Ok (t / 1048576)) ∧
  (∀ e, import_psutil env = Raise e → is_ImportError e = false →
     get_system_info env w = (Raise e, w)) ∧
  (∀ ps e, import_psutil env = Ok ps →
     cpu_count ps true = Raise e → is_ImportError e = false →
     get_system_info env w = (Raise e, w)) ∧
  (∀ ps l e, import_psutil env = Ok ps → cpu_count ps true = Ok l →
     cpu_count ps false = Raise e → is_ImportError e = false →
     get_system_info env w = (Raise e, w)) ∧
  (∀ ps l p e, import_psutil env = Ok ps → cpu_count ps true = Ok l →
     cpu_count ps false = Ok p → virtual_memory_total ps = Raise e →
     is_ImportError e = false →
     get_system_info env w = (Raise e, w)) ∧
  (∀ ps l p t e, import_psutil env = Ok ps → cpu_count ps true = Ok l →
     cpu_count ps false = Ok p → virtual_memory_total ps = Ok t →
     megabytes t = Raise e →
     get_system_info env w = (Raise e, w)).
Proof.
  split_and!.
  - intros e He Himp.
    destruct (get_system_info_import_error env w e He Himp)
      as (info & Hrun & Hph).
    exists info. split_and!; [done| |done].
    by eapply get_system_info_keys.
  - intros e He Himp. rewrite get_system_info_query, He, Himp.
    eexists. split; [reflexivity|]. split; [apply dom_host_info|].
    by split_and!.
  - apply get_system_info_keys.
  - intros ps l p t m Hps Hl Hp Ht Hm.
    rewrite get_system_info_query. unfold psutil_query.
    rewrite Hps, Hl, Hp, Ht, Hm.
    eexists. split; [reflexivity|]. by split_and!.
  - apply megabytes_small.
  - intros e He Himp. rewrite get_system_info_query. unfold psutil_query.
    by rewrite He, Himp.
  - intros ps e Hps He Himp. rewrite get_system_info_query.
    unfold psutil_query. by rewrite Hps, He, Himp.
  - intros ps l e Hps Hl He Himp. rewrite get_system_info_query.
    unfold psutil_query. by rewrite Hps, Hl, He, Himp.
  - intros ps l p e Hps Hl Hp He Himp. rewrite get_system_info_query.
    unfold psutil_query. by rewrite Hps, Hl, Hp, He, Himp.
  - intros ps l p t e Hps Hl Hp Ht He. rewrite get_system_info_query.
    unfold psutil_query. rewrite Hps, Hl, Hp, Ht, He.
    unfold megabytes in He.
    destruct (_ <=? _) in He; [|done]. by injection He as <-.
Qed.

Lemma C6_witness :
  (∃ info,
     get_system_info Fixture.env initial_world = (Ok info, initial_world) ∧
     dom info = host_info_keys ∧
     placeholders info) ∧
  get_system_info (Fixture.with_psutil (Ok Fixture.psutil_broken)) initial_world
    = (Raise Fixture.meminfo_missing, initial_world).
Proof.
  split.
  - exact (proj1 (C6_fallback_on_import_error Fixture.env initial_world)
             _ eq_refl eq_refl).
  - destruct (C6_fallback_on_import_error
                (Fixture.with_psutil (Ok Fixture.psutil_broken)) initial_world)
      as (_ & _ & _ & _ & _ & _ & _ & _ & H & _).
    exact (H Fixture.psutil_broken (Some 16) (Some 8) Fixture.meminfo_missing
             eq_refl eq_refl eq_refl eq_refl eq_refl).
Defined.

(** ** Paths *)

Lemma rfind_succ_slash_free s : slash_free s = true → rfind_succ "/" s = O.
Proof.
  induction s as [|c s IH]; [done|].
  simpl. intros [Hc Hs]%andb_true_iff. rewrite (IH Hs).
  by destruct (Ascii.eqb c "/").
Qed.

Lemma rfind_succ_app c s t :
  rfind_succ c (s +:+ t) =
  match rfind_succ c t with
  | O => rfind_succ c s
  | S i => (String.length s + S i)%nat
  end.
Proof.
  induction s as [|a s IH]; str_norm; simpl.
  - by destruct (rfind_succ c t).
  - rewrite IH. destruct (rfind_succ c t); [done|].
    by rewrite Nat.add_succ_r.
Qed.

Lemma str_from_app s t : str_from (String.length s) (s +:+ t) = t.
Proof. induction s as [|a s IH]; [by destruct t|]. by str_norm. Qed.

Lemma basename_slash_free n :
  slash_free n = true → os_path.basename n = n.
Proof.
  intros Hn. unfold os_path.basename. by rewrite rfind_succ_slash_free.
Qed.

Lemma basename_after_slash d n :
  slash_free n = true → os_path.basename (d +:+ "/" +:+ n) = n.
Proof.
  intros Hn. unfold os_path.basename.
  rewrite <-app_assoc_str, rfind_succ_app, (rfind_succ_slash_free n Hn).
  rewrite rfind_succ_app. simpl.
  replace (String.length d + 1)%nat with (String.length (d +:+ "/"))
    by (rewrite app_length_str; simpl; lia).
  apply str_from_app.
Qed.

(** The last component of a path is its base name. *)
Lemma basename_in_dir d n :
  dir_prefix d → slash_free n = true → os_path.basename (d +:+ n) = n.
Proof.
  intros [->|[d' ->]] Hn.
  - by apply basename_slash_free.
  - rewrite app_assoc_str. by apply basename_after_slash.
Qed.

(** ** Sorting *)

Lemma compare_app_prefix d a b :
  String.compare (d +:+ a) (d +:+ b) = String.compare a b.
Proof.
  induction d as [|c d IH]; [done|]. str_norm. simpl.
  unfold Ascii.compare. by rewrite N.compare_refl.
Qed.

(** Paths of one directory compare as their file names do. *)
Lemma le_app_prefix d a b : String.le a b → String.le (d +:+ a) (d +:+ b).
Proof. unfold String.le, String.leb. by rewrite compare_app_prefix. Qed.

(** The sorted list depends on what is in the list, not on its order. *)
Lemma list_sort_unique l1 l2 : l1 ≡ₚ l2 → list_sort l1 = list_sort l2.
Proof.
  intros Hp. apply (StronglySorted_unique String.le).
  - apply StronglySorted_merge_sort; apply _.
  - apply StronglySorted_merge_sort; apply _.
  - unfold list_sort. by rewrite !merge_sort_Permutation.
Qed.

Lemma list_sort_prefix d (names : list string) :
  list_sort (String.app d <$> names) = String.app d <$> list_sort names.
Proof.
  apply (StronglySorted_unique String.le).
  - apply StronglySorted_merge_sort; apply _.
  - apply (StronglySorted_fmap _ String.le); [apply le_app_prefix|].
    apply StronglySorted_merge_sort; apply _.
  - unfold list_sort. by rewrite !merge_sort_Permutation.
Qed.

Lemma list_sort_sorted l : Sorted String.le (list_sort l).
Proof. apply Sorted_merge_sort; apply _. Qed.

Lemma list_sort_Forall (P : string → Prop) l :
  Forall P l → Forall P (list_sort l).
Proof.
  intros H. unfold list_sort. by rewrite merge_sort_Permutation.
Qed.

(** ** Order of the log files *)

Lemma record_names env args (paths : list string) :
  omap record_name (test_element args <$> (test_data env <$> paths))
  = os_path.basename <$> paths.
Proof.
  induction paths as [|f l IH]; [done|].
  rewrite !fmap_cons. simpl. f_equal. apply IH.
Qed.

Lemma basename_in_dir_all d (names : list string) :
  dir_prefix d → Forall (λ n, slash_free n = true) names →
  os_path.basename <$> (String.app d <$> names) = names.
Proof.
  intros Hd. induction 1 as [|n l Hn _ IH]; [done|].
  rewrite !fmap_cons, IH. f_equal. by apply basename_in_dir.
Qed.

(** The generator sees the enumeration only through the sorted list. *)
Lemma generate_test_xml_glob_order env g args sys_info w :
  (∀ pattern, g pattern ≡ₚ glob_glob env pattern) →
  generate_test_xml (with_glob env g) args sys_info w
  = generate_test_xml env args sys_info w.
Proof.
  intros Hg. unfold generate_test_xml. simpl.
  by rewrite (list_sort_unique _ _ (Hg _)).
Qed.

(** C3.  When the enumeration returns the files of one directory, the
    generator handles them in the lexicographic order of their file
    names: the names of the records of [Test.xml], in document order, are
    the sorted file names, and so are the entries of the test list.  The
    order of the enumeration has no influence: with the same files
    enumerated in another order the generator does the same. *)
Theorem C3_sorted_filename_order env args bn sys_info w d names :
  build_name args = Some bn →
  dir_prefix d →
  Forall (λ n, slash_free n = true) names →
  glob_glob env (os_path.join (log_dir args) "*.log") = String.app d <$> names →
  (∃ w' site,
     generate_test_xml env args sys_info w = (Ok (), w') ∧
     test_xml w' = Some site ∧
     omap record_name (test_records site) = list_sort names ∧
     test_list site
       = (λ n, "./" +:+ log_dir args +:+ "/" +:+ n) <$> list_sort names ∧
     Sorted String.le (list_sort names) ∧
     list_sort names ≡ₚ names) ∧
  (∀ g, (∀ pattern, g pattern ≡ₚ glob_glob env pattern) →
     generate_test_xml (with_glob env g) args sys_info w
     = generate_test_xml env args sys_info w).
Proof.
  intros Hbn Hd Hnames Hglob. split.
  - destruct (generate_test_xml_run env args bn sys_info w Hbn)
      as (w' & site & Hrun & Hfiles & _ & _ & Hrec & Hlist).
    rewrite Hglob, list_sort_prefix in Hrec, Hlist.
    pose proof (list_sort_Forall _ _ Hnames) as Hsorted.
    exists w', site. split_and!; [done|by eapply test_xml_written| | | |].
    + by rewrite Hrec, record_names, basename_in_dir_all.
    + transitivity ((λ n, "./" +:+ log_dir args +:+ "/" +:+ n) <$>
        (os_path.basename <$> (String.app d <$> list_sort names))).
      * rewrite Hlist, <-!list_fmap_compose. reflexivity.
      * by rewrite basename_in_dir_all.
    + apply list_sort_sorted.
    + apply merge_sort_Permutation.
  - intros g Hg. by apply generate_test_xml_glob_order.
Qed.

Lemma C3_witness :
  ∃ w' site,
    generate_test_xml Fixture.env Fixture.args ∅ initial_world = (Ok (), w') ∧
    test_xml w' = Some site ∧
    omap record_name (test_records site) = ["a.log"; "b.log"; "c.log"] ∧
    test_list site = ["./logs/a.log"; "./logs/b.log"; "./logs/c.log"].
Proof.
  destruct (C3_sorted_filename_order Fixture.env Fixture.args "nightly"
              ∅ initial_world "logs/" ["c.log"; "a.log"; "b.log"] eq_refl
              (or_intror (ex_intro _ "logs" eq_refl))
              ltac:(repeat constructor) eq_refl)
    as [(w' & site & H1 & H2 & H3 & H4 & _) _].
  exists w', site.
  split; [exact H1|]. split; [exact H2|]. split; [exact H3|exact H4].
Defined.

(** ** Splitting and joining paths *)

Lemma str_split_nonempty sep s : str_split sep s ≠ [].
Proof.
  destruct s as [|c s]; [done|]. simpl.
  destruct (Ascii.eqb c sep); [done|]. by destruct (str_split sep s).
Qed.

Lemma str_split_app sep s t :
  str_split sep (s +:+ String sep t) = str_split sep s ++ str_split sep t.
Proof.
  induction s as [|c s IH]; str_norm; simpl.
  - by rewrite Ascii.eqb_refl.
  - rewrite IH. destruct (Ascii.eqb c sep); [done|].
    pose proof (str_split_nonempty sep s).
    by destruct (str_split sep s).
Qed.

Lemma str_split_slash_free seg :
  slash_free seg = true → str_split "/" seg = [seg].
Proof.
  induction seg as [|c s IH]; [done|].
  simpl. intros [Hc Hs]%andb_true_iff. rewrite (IH Hs).
  by destruct (Ascii.eqb c "/").
Qed.

Lemma str_split_slashes k :
  str_split "/" (str_repeat "/" k) = replicate (S k) "".
Proof. induction k as [|k IH]; [done|]. simpl. by rewrite IH. Qed.

Lemma str_split_trailing seg k :
  slash_free seg = true →
  str_split "/" (seg +:+ str_repeat "/" k) = seg :: replicate k "".
Proof.
  intros Hseg. destruct k as [|k]; simpl.
  - rewrite app_empty_r. by apply str_split_slash_free.
  - by rewrite str_split_app, str_split_slash_free, str_split_slashes.
Qed.

(** The components of a split have no separator in them. *)
Lemma str_split_components s :
  Forall (λ c, slash_free c = true) (str_split "/" s).
Proof.
  induction s as [|c s IH]; simpl; [by repeat constructor|].
  destruct (Ascii.eqb c "/") eqn:Hc; [by constructor|].
  pose proof (str_split_nonempty "/" s).
  destruct (str_split "/" s) as [|w ws]; [done|].
  apply Forall_cons in IH as [Hw Hws]. constructor; [|done].
  unfold slash_free in *. simpl. by rewrite Hc, Hw.
Qed.

(** A joined list that ends in [seg] is [seg] behind a directory
    prefix. *)
Lemma str_join_snoc xs seg :
  ∃ p, dir_prefix p ∧ str_join "/" (xs ++ [seg]) = p +:+ seg.
Proof.
  induction xs as [|x xs (p & Hp & IH)].
  - exists "". split; [by left|done].
  - exists (x +:+ "/" +:+ p). split.
    + right. destruct Hp as [->|[p' ->]].
      * exists x. by rewrite app_empty_r.
      * exists (x +:+ "/" +:+ p'). by rewrite !app_assoc_str.
    + simpl. rewrite IH. destruct (xs ++ [seg]) eqn:Hl.
      * by destruct xs.
      * by rewrite !app_assoc_str.
Qed.

Lemma dir_prefix_slashes k p :
  dir_prefix p → dir_prefix (str_repeat "/" k +:+ p).
Proof.
  intros [->|[p' ->]].
  - destruct k as [|k]; [by left|]. right.
    exists (str_repeat "/" k). rewrite app_empty_r. clear.
    induction k as [|k IH]; [done|]. simpl. str_norm. by rewrite <-IH.
  - right. exists (str_repeat "/" k +:+ p'). by rewrite app_assoc_str.
Qed.

(** ** [normpath] *)

Lemma plain_segment_spec seg :
  plain_segment seg = true →
  slash_free seg = true ∧ seg ≠ "" ∧ seg ≠ "." ∧ seg ≠ "..".
Proof.
  unfold plain_segment. rewrite !andb_true_iff, !negb_true_iff.
  intros [[[? ?%String.eqb_neq] ?%String.eqb_neq] ?%String.eqb_neq]. done.
Qed.

Lemma normpath_step_plain n acc seg :
  plain_segment seg = true → os_path.normpath_step n acc seg = acc ++ [seg].
Proof.
  intros (_ & H1 & H2 & H3)%plain_segment_spec. unfold os_path.normpath_step.
  rewrite !bool_decide_eq_false_2 by done. simpl.
  by rewrite (bool_decide_eq_true_2 (seg ≠ "..")) by done.
Qed.

Lemma normpath_step_empties n acc k :
  foldl (os_path.normpath_step n) acc (replicate k "") = acc.
Proof. induction k as [|k IH]; [done|]. simpl. apply IH. Qed.

Lemma app_not_empty s t : t ≠ "" → s +:+ t ≠ "".
Proof. intros Ht. destruct s; [done|]. by str_norm. Qed.

(** A path that ends in a plain segment, with or without separators
    after it, normalizes to a path that ends in that segment. *)
Lemma normpath_trailing d seg k :
  dir_prefix d → plain_segment seg = true →
  ∃ p, dir_prefix p ∧
       os_path.normpath (d +:+ seg +:+ str_repeat "/" k) = p +:+ seg.
Proof.
  intros Hd Hseg.
  destruct (plain_segment_spec seg Hseg) as (Hfree & Hne & _).
  unfold os_path.normpath.
  rewrite bool_decide_eq_false_2
    by (apply app_not_empty; destruct seg; [done|by str_norm]).
  generalize (if startswith (d +:+ seg +:+ str_repeat "/" k) "/"
              then if startswith (d +:+ seg +:+ str_repeat "/" k) "//"
                      && negb (startswith (d +:+ seg +:+ str_repeat "/" k) "///")
                   then 2%nat else 1%nat
              else 0%nat) as n.
  intros n.
  assert (∃ comps, str_split "/" (d +:+ seg +:+ str_repeat "/" k)
                   = comps ++ seg :: replicate k "") as [comps ->].
  { destruct Hd as [->|[d' ->]].
    - exists []. by apply str_split_trailing.
    - exists (str_split "/" d').
      str_norm. by rewrite str_split_app, str_split_trailing. }
  rewrite foldl_app. simpl.
  rewrite normpath_step_plain, normpath_step_empties by done.
  destruct (str_join_snoc (foldl (os_path.normpath_step n) [] comps) seg)
    as (p & Hp & ->).
  exists (str_repeat "/" n +:+ p). split; [by apply dir_prefix_slashes|].
  rewrite <-app_assoc_str.
  rewrite bool_decide_eq_false_2; [done|].
  apply app_not_empty, Hne.
Qed.

(** The base name of such a path, once normalized, is its last
    segment. *)
Lemma basename_normpath_trailing d seg k :
  dir_prefix d → plain_segment seg = true →
  os_path.basename (os_path.normpath (d +:+ seg +:+ str_repeat "/" k)) = seg.
Proof.
  intros Hd Hseg.
  destruct (normpath_trailing d seg k Hd Hseg) as (p & Hp & ->).
  apply basename_in_dir; [done|]. by apply plain_segment_spec.
Qed.

Lemma Forall_removelast {A} (P : A → Prop) (l : list A) :
  Forall P l → Forall P (removelast l).
Proof.
  induction 1 as [|x l Hx Hl IH]; [done|].
  simpl. destruct l; [constructor|]. by constructor.
Qed.

(** The components [normpath] keeps are not empty and have no separator
    in them. *)
Lemma normpath_step_components n acc comp :
  Forall (λ c, slash_free c = true ∧ c ≠ "") acc →
  slash_free comp = true →
  Forall (λ c, slash_free c = true ∧ c ≠ "") (os_path.normpath_step n acc comp).
Proof.
  intros Hacc Hcomp. unfold os_path.normpath_step.
  destruct (bool_decide (comp = "")) eqn:He; [done|].
  apply bool_decide_eq_false in He. simpl.
  destruct (bool_decide (comp = ".")); [done|].
  destruct (_ || _ || _).
  - apply Forall_app. split; [done|]. by repeat constructor.
  - destruct (bool_decide (acc ≠ [])); [|done]. by apply Forall_removelast.
Qed.

Lemma normpath_components n comps acc :
  Forall (λ c, slash_free c = true ∧ c ≠ "") acc →
  Forall (λ c, slash_free c = true) comps →
  Forall (λ c, slash_free c = true ∧ c ≠ "")
    (foldl (os_path.normpath_step n) acc comps).
Proof.
  intros Hacc Hcomps. revert acc Hacc.
  induction Hcomps as [|c l Hc _ IH]; intros acc Hacc; [done|].
  simpl. apply IH. by apply normpath_step_components.
Qed.



Example normpath_examples :
  os_path.normpath "" = "." ∧
  os_path.normpath "/data//x/../nightly_run/" = "/data/nightly_run" ∧
  os_path.normpath "//a" = "//a" ∧
  os_path.normpath "///a/./b" = "/a/b" ∧
  os_path.normpath "a/.." = "." ∧
  os_path.normpath "../a" = "../a" ∧
  os_path.normpath "/.." = "/" ∧
  os_path.basename "/" = "" ∧
  os_path.join "logs" "*.log" = "logs/*.log" ∧
  os_path.join "logs/" "*.log" = "logs/*.log" ∧
  os_path.join "" "*.log" = "*.log".
Proof. repeat split; vm_compute; reflexivity. Qed.

(** ** The attributes of the root element *)

Lemma set_all_lookup (sys_info attrs : gmap string string) key :
  set_all sys_info attrs !! key = (sys_info ∪ attrs) !! key.
Proof.
  unfold set_all.
  apply (map_fold_weak_ind
    (λ r (m : gmap string string), r !! key = (m ∪ attrs) !! key)).
  - by rewrite (left_id_L ∅ (∪)).
  - intros i x m r Hi IH.
    rewrite <-insert_union_l. destruct (decide (i = key)) as [->|Hne].
    + by rewrite !lookup_insert_eq.
    + by rewrite !lookup_insert_ne.
Qed.

(** Host information never overrides the build name. *)
Lemma build_name_attribute bn args (sys_info : gmap string string) :
  dom sys_info = host_info_keys →
  set_all sys_info (attrib (site_element bn args ∅ [])) !! "BuildName"
  = Some bn.
Proof.
  intros Hdom. rewrite set_all_lookup.
  assert (sys_info !! "BuildName" = None) as Hnone.
  { apply not_elem_of_dom. rewrite Hdom. unfold host_info_keys.
    rewrite elem_of_list_to_set, !not_elem_of_cons.
    split_and!; try done. apply not_elem_of_nil. }
  rewrite lookup_union_r by done. reflexivity.
Qed.

(** ** The whole run *)

Lemma default_build_name_spec args :
  build_name (default_build_name args) = Some (effective_build_name args) ∧
  log_dir (default_build_name args) = log_dir args.
Proof.
  unfold default_build_name, effective_build_name, truthy.
  destruct (build_name args) as [s|] eqn:Hbn; simpl; [|done].
  destruct (String.eqb s ""); simpl; [done|]. by rewrite Hbn.
Qed.

(** The whole outcome of a run of the test report generator. *)
Lemma generate_test_xml_document env args bn sys_info w :
  build_name args = Some bn →
  generate_test_xml env args sys_info w =
  (Ok (),
   {| stdout := stdout w ++
        (if bool_decide (list_sort (glob_glob env (os_path.join (log_dir args) "*.log")) = [])
         then ["Warning: No log files found in " +:+ log_dir args] else [])
        ++ ["Generated Test.xml"];
      files := <["Test.xml" := mk_doc false
        (site_element bn args sys_info
           [ Elem "Testing" ∅ None
               ([ text_elem "StartDateTime"
                    (time_strftime env (clock env (clock_reads w)));
                  text_elem "StartTestTime"
                    (str_int (clock env (clock_reads w)));
                  Elem "TestList" ∅ None
                    (test_list_entry args <$>
                       (test_data env <$>
                          list_sort (glob_glob env
                            (os_path.join (log_dir args) "*.log")))) ]
                ++ (test_element args <$>
                      (test_data env <$>
                         list_sort (glob_glob env
                           (os_path.join (log_dir args) "*.log"))))
                ++ [ text_elem "EndDateTime"
                       (time_strftime env (clock env (S (clock_reads w))));
                     text_elem "EndTestTime"
                       (str_int (clock env (S (S (clock_reads w))))) ]) ])]>
        (files w);
      clock_reads := S (S (S (clock_reads w))) |}).
Proof.
  intros Hbn. unfold generate_test_xml.
  set (log_files := list_sort _).
  unfold mbind, M_bind, time_time at 1.
  assert (∀ w0, (if bool_decide (log_files = [])
           then print ("Warning: No log files found in " +:+ log_dir args)
           else mret ()) w0
          = (Ok (), {| stdout := stdout w0 ++
                         (if bool_decide (log_files = [])
                          then ["Warning: No log files found in " +:+ log_dir args]
                          else []);
                       files := files w0;
                       clock_reads := clock_reads w0 |})) as Hwarn.
  { intros [o f c]. unfold print, mret, M_ret. case_bool_decide; simpl; [done|].
    by rewrite app_nil_r. }
  rewrite Hwarn, mapM_scan_run. unfold time_time. rewrite Hbn. simpl.
  unfold print. simpl. by rewrite <-app_assoc.
Qed.

Lemma findall_other_tag args (tests : list TestData) t :
  t ≠ "Test" →
  filter (λ c, tag c = t) (test_element args <$> tests) = [].
Proof.
  intros Ht. induction tests as [|x l IH]; [done|].
  rewrite fmap_cons, filter_cons_False; [done|]. simpl. congruence.
Qed.

(** What a run of the completion marker generator leaves behind. *)
Lemma generate_done_xml_run env args w :
  generate_done_xml env args w =
  let root := done_element args (clock env (clock_reads w)) in
  match minidom_parse env root with
  | Ok _ =>
      (Ok (), {| stdout := stdout w ++ ["Generated Done.xml"];
                 files := <["Done.xml" := mk_doc true root]> (files w);
                 clock_reads := S (clock_reads w) |})
  | Raise e =>
      (Raise e, {| stdout := stdout w;
                   files := files w;
                   clock_reads := S (clock_reads w) |})
  end.
Proof.
  unfold generate_done_xml, mbind, M_bind, time_time, lift. simpl.
  by destruct (minidom_parse env _).
Qed.

Lemma get_system_info_world env w o w' :
  get_system_info env w = (o, w') → w' = w.
Proof.
  rewrite get_system_info_query.
  destruct (psutil_query env) as [[[l p] m]|e].
  - by intros [= <- <-].
  - destruct (is_ImportError e); by intros [= <- <-].
Qed.

(** The outcome of [main] once the host information is collected: the
    parser's verdict on the build report and on the completion marker
    decides how far the run gets. *)
Lemma main_run env args w info :
  get_system_info env w = (Ok info, w) →
  main env args w =
  match minidom_parse env (run_build_site env args info w) with
  | Raise e =>
      (Raise e, {| stdout := stdout w;
                   files := files w;
                   clock_reads := 1 + clock_reads w |})
  | Ok _ =>
      match minidom_parse env (run_done_root env args w) with
      | Raise e =>
          (Raise e,
           {| stdout := stdout w ++ ["Generated Build.xml"]
                          ++ run_warning env args ++ ["Generated Test.xml"];
              files :=
                <["Test.xml" := mk_doc false (run_test_site env args info w)]>
                (<["Build.xml" := mk_doc true (run_build_site env args info w)]>
                (files w));
              clock_reads := 5 + clock_reads w |})
      | Ok _ => (Ok (), run_world env args info w)
      end
  end.
Proof.
  intros Hinfo.
  destruct (default_build_name_spec args) as [Hbn Hdir].
  unfold main, mbind, M_bind. rewrite Hinfo.
  rewrite (generate_build_xml_run env _ _ info w Hbn). simpl.
  fold (run_build_site env args info w).
  destruct (minidom_parse env (run_build_site env args info w)) as [[]|e];
    [|done].
  rewrite (generate_test_xml_document env _ _ info _ Hbn).
  rewrite generate_done_xml_run. simpl. rewrite Hdir.
  fold (run_log_files env args). fold (run_warning env args).
  unfold run_world, run_test_site, run_done_root. simpl.
  destruct (minidom_parse env (done_element _ _)) as [[]|e];
    rewrite <-?app_assoc; reflexivity.
Qed.

Lemma main_returns env args w info :
  get_system_info env w = (Ok info, w) →
  minidom_parse env (run_build_site env args info w) = Ok () →
  minidom_parse env (run_done_root env args w) = Ok () →
  main env args w = (Ok (), run_world env args info w).
Proof. intros Hinfo Hb Hd. by rewrite (main_run env args w info Hinfo), Hb, Hd. Qed.

Lemma main_returned env args w w' :
  main env args w = (Ok (), w') →
  ∃ info,
    get_system_info env w = (Ok info, w) ∧
    dom info = host_info_keys ∧
    minidom_parse env (run_build_site env args info w) = Ok () ∧
    minidom_parse env (run_done_root env args w) = Ok () ∧
    w' = run_world env args info w.
Proof.
  intros Hmain.
  destruct (get_system_info env w) as [[info|e] w0] eqn:Hinfo.
  - pose proof (get_system_info_world _ _ _ _ Hinfo) as ->.
    destruct (get_system_info_keys _ _ _ _ Hinfo) as [_ Hdom].
    rewrite (main_run env args w info Hinfo) in Hmain.
    exists info.
    destruct (minidom_parse env (run_build_site env args info w)) as [[]|e];
      [|done].
    destruct (minidom_parse env (run_done_root env args w)) as [[]|e];
      [|done].
    by injection Hmain as <-.
  - unfold main, mbind, M_bind in Hmain. by rewrite Hinfo in Hmain.
Qed.

Lemma run_world_documents env args info w :
  build_xml (run_world env args info w) = Some (run_build_site env args info w) ∧
  test_xml (run_world env args info w) = Some (run_test_site env args info w) ∧
  done_xml (run_world env args info w) = Some (run_done_root env args w).
Proof.
  unfold build_xml, test_xml, done_xml, run_world. simpl. split_and!.
  - rewrite lookup_insert_ne by done. rewrite lookup_insert_ne by done.
    by rewrite lookup_insert_eq.
  - rewrite lookup_insert_ne by done. by rewrite lookup_insert_eq.
  - by rewrite lookup_insert_eq.
Qed.

Lemma run_sites_build_name env args info w :
  dom info = host_info_keys →
  attrib (run_build_site env args info w) !! "BuildName"
    = Some (effective_build_name args) ∧
  attrib (run_test_site env args info w) !! "BuildName"
    = Some (effective_build_name args).
Proof.
  intros Hdom.
  split; apply (build_name_attribute _ (default_build_name args) info Hdom).
Qed.

Lemma run_test_site_records env args info w :
  test_records (run_test_site env args info w)
  = test_element (default_build_name args) <$>
      (test_data env <$> run_log_files env args).
Proof.
  unfold test_records, run_test_site, find, findall. simpl.
  rewrite !filter_cons_False by done.
  rewrite filter_app, findall_test_elements.
  rewrite !filter_cons_False by done. by rewrite filter_nil, app_nil_r.
Qed.

Lemma run_test_site_list env args info w :
  test_list (run_test_site env args info w)
  = (λ f, "./" +:+ log_dir args +:+ "/" +:+ os_path.basename f) <$>
      run_log_files env args.
Proof.
  destruct (default_build_name_spec args) as [_ Hdir].
  unfold test_list, run_test_site, find, findall. simpl.
  rewrite findall_test_list_entries, Hdir.
  by rewrite <-list_fmap_compose.
Qed.

(** ** No log files *)

(** C5.  When no log file matches, the generator prints the warning,
    writes a [Test.xml] whose session has a [TestList] element without
    entries and no test record, prints its confirmation and returns
    normally.  A run of [main] in which the host information is collected
    and the build report and the completion marker parse goes through
    all three generators and ends normally, with the warning among its
    output and that same empty test report. *)
Theorem C5_empty_log_directory env args bn sys_info w :
  build_name args = Some bn →
  glob_glob env (os_path.join (log_dir args) "*.log") = [] →
  (∃ w' site testing entries,
     generate_test_xml env args sys_info w = (Ok (), w') ∧
     stdout w' = stdout w ++
       ["Warning: No log files found in " +:+ log_dir args;
        "Generated Test.xml"] ∧
     test_xml w' = Some site ∧
     testing_of site = Some testing ∧
     find "TestList" testing = Some entries ∧
     children entries = [] ∧
     test_list site = [] ∧
     test_records site = []) ∧
  (∀ info, get_system_info env w = (Ok info, w) →
     minidom_parse env (run_build_site env args info w) = Ok () →
     minidom_parse env (run_done_root env args w) = Ok () →
     ∃ w' site testing entries,
       main env args w = (Ok (), w') ∧
       stdout w' = stdout w ++
         ["Generated Build.xml";
          "Warning: No log files found in " +:+ log_dir args;
          "Generated Test.xml";
          "Generated Done.xml"] ∧
       test_xml w' = Some site ∧
       testing_of site = Some testing ∧
       find "TestList" testing = Some entries ∧
       children entries = [] ∧
       test_list site = [] ∧
       test_records site = []).
Proof.
  intros Hbn Hglob. split.
  - rewrite (generate_test_xml_document env args bn sys_info w Hbn), Hglob.
    eexists _, _, _, _. split; [reflexivity|].
    split; [reflexivity|].
    split; [unfold test_xml; simpl; by rewrite lookup_insert_eq|].
    by split_and!.
  - intros info Hinfo Hb Hd.
    exists (run_world env args info w), (run_test_site env args info w).
    destruct (run_world_documents env args info w) as (_ & Ht & _).
    assert (run_log_files env args = []) as Hfiles.
    { unfold run_log_files. by rewrite Hglob. }
    unfold run_test_site in *. rewrite Hfiles in *.
    eexists _, _. split; [by apply main_returns|].
    split; [simpl; unfold run_warning; by rewrite Hfiles|].
    split; [exact Ht|]. by split_and!.
Qed.

Lemma C5_witness :
  (∃ w' site,
     generate_test_xml Fixture.env_empty Fixture.args ∅ initial_world
       = (Ok (), w') ∧
     stdout w' = ["Warning: No log files found in logs"; "Generated Test.xml"] ∧
     test_xml w' = Some site ∧
     test_list site = [] ∧
     test_records site = []) ∧
  (∃ w' site,
     main Fixture.env_empty Fixture.args initial_world = (Ok (), w') ∧
     stdout w' = ["Generated Build.xml";
                  "Warning: No log files found in logs";
                  "Generated Test.xml";
                  "Generated Done.xml"] ∧
     test_xml w' = Some site ∧
     test_list site = [] ∧
     test_records site = []).
Proof.
  destruct (C5_empty_log_directory Fixture.env_empty Fixture.args "nightly"
              ∅ initial_world eq_refl eq_refl) as [H1 H2].
  split.
  - destruct H1 as (w' & site & _ & _ & Hrun & Hout & Hsite & _ & _ & _ & Hl & Hr).
    exists w', site. split; [exact Hrun|]. split; [exact Hout|].
    split; [exact Hsite|]. split; [exact Hl|exact Hr].
  - destruct (H2 Fixture.info eq_refl eq_refl eq_refl)
      as (w' & site & _ & _ & Hrun & Hout & Hsite & _ & _ & _ & Hl & Hr).
    exists w', site. split; [exact Hrun|]. split; [exact Hout|].
    split; [exact Hsite|]. split; [exact Hl|exact Hr].
Defined.

(** ** The default build name *)

Lemma str_split_dir_trailing d seg k :
  dir_prefix d → slash_free seg = true →
  ∃ comps, str_split "/" (d +:+ seg +:+ str_repeat "/" k)
           = comps ++ seg :: replicate k "".
Proof.
  intros Hd Hseg. destruct Hd as [->|[d' ->]].
  - exists []. by apply str_split_trailing.
  - exists (str_split "/" d').
    str_norm. by rewrite str_split_app, str_split_trailing.
Qed.

Lemma trailing_segment_plain d seg k :
  dir_prefix d → plain_segment seg = true →
  trailing_segment (d +:+ seg +:+ str_repeat "/" k) = Some seg.
Proof.
  intros Hd Hseg.
  destruct (plain_segment_spec seg Hseg) as (Hfree & Hne & _).
  destruct (str_split_dir_trailing d seg k Hd Hfree) as [comps Hsplit].
  unfold trailing_segment. rewrite Hsplit, filter_app, filter_cons_True by done.
  assert (filter (λ c : string, c ≠ "") (replicate k "") = []) as ->.
  { clear. induction k as [|k IH]; [done|].
    simpl. by rewrite filter_cons_False by (by intros []). }
  apply last_snoc.
Qed.

(** The build name of a run that ends normally is on both reports. *)
Lemma reports_carry_build_name env args w w' :
  main env args w = (Ok (), w') →
  ∃ bsite tsite,
    build_xml w' = Some bsite ∧
    attrib bsite !! "BuildName" = Some (effective_build_name args) ∧
    test_xml w' = Some tsite ∧
    attrib tsite !! "BuildName" = Some (effective_build_name args).
Proof.
  intros (info & Hinfo & Hdom & _ & _ & ->)%main_returned.
  destruct (run_world_documents env args info w) as (Hb & Ht & _).
  destruct (run_sites_build_name env args info w Hdom) as [Hbn Htn].
  by eexists _, _.
Qed.

(** With [--log-dir a/b/..] and no [--build-name] the build name is
    ["a"], the component the path leads to, where the trailing segment of
    the path is [".."]. *)
Lemma C8_trailing_segment_differs :
  build_name Fixture.args_parent = None ∧
  trailing_segment (log_dir Fixture.args_parent) = Some ".." ∧
  build_name (default_build_name Fixture.args_parent) = Some "a" ∧
  build_name (default_build_name Fixture.args_parent)
    ≠ trailing_segment (log_dir Fixture.args_parent).
Proof. by vm_compute. Qed.

(** C8, amended.  When [--build-name] is omitted, the effective build
    name is the base name of the normalized log directory path.  For a
    path that ends in a segment [seg] (not ["."] or [".."]), followed by
    any number of separators, that is the trailing segment [seg] of the
    path; log directory ["/data/nightly_run"] gives ["nightly_run"].
    Otherwise the path is normalized first: ["a/b/.."] gives ["a"],
    ["logs/."] gives ["logs"], the empty path gives ["."] and the root
    the empty name.  Every run of [main] that ends normally has that name
    as the [BuildName] of its build and test reports, and a run ends
    normally when the host information is collected and the build report
    and the completion marker parse. *)
Theorem C8_default_build_name env args w :
  build_name args = None →
  build_name (default_build_name args)
    = Some (os_path.basename (os_path.normpath (log_dir args))) ∧
  (∀ d seg k, dir_prefix d → plain_segment seg = true →
     log_dir args = d +:+ seg +:+ str_repeat "/" k →
     build_name (default_build_name args) = Some seg ∧
     trailing_segment (log_dir args) = Some seg) ∧
  (∀ w', main env args w = (Ok (), w') →
     ∃ bsite tsite,
       build_xml w' = Some bsite ∧
       attrib bsite !! "BuildName"
         = Some (os_path.basename (os_path.normpath (log_dir args))) ∧
       test_xml w' = Some tsite ∧
       attrib tsite !! "BuildName"
         = Some (os_path.basename (os_path.normpath (log_dir args)))) ∧
  (∀ info, get_system_info env w = (Ok info, w) →
     minidom_parse env (run_build_site env args info w) = Ok () →
     minidom_parse env (run_done_root env args w) = Ok () →
     ∃ w', main env args w = (Ok (), w')) ∧
  os_path.basename (os_path.normpath "/data/nightly_run") = "nightly_run" ∧
  os_path.basename (os_path.normpath "a/b/..") = "a" ∧
  os_path.basename (os_path.normpath "logs/.") = "logs" ∧
  os_path.basename (os_path.normpath "") = "." ∧
  os_path.basename (os_path.normpath "/") = "".
Proof.
  intros Hnone.
  assert (effective_build_name args
          = os_path.basename (os_path.normpath (log_dir args))) as Heff.
  { unfold effective_build_name. by rewrite Hnone. }
  assert (build_name (default_build_name args)
          = Some (os_path.basename (os_path.normpath (log_dir args)))) as Hbn.
  { destruct (default_build_name_spec args) as [-> _]. by rewrite Heff. }
  split_and!; [done| | | |done..].
  - intros d seg k Hd Hseg Hdir. rewrite Hbn, Hdir. split.
    + by rewrite basename_normpath_trailing.
    + by apply trailing_segment_plain.
  - intros w' Hmain. rewrite <-Heff. by eapply reports_carry_build_name.
  - intros info Hinfo Hb Hd. eexists. by apply main_returns.
Qed.

Lemma C8_witness :
  build_name (default_build_name Fixture.args_nightly) = Some "nightly_run" ∧
  trailing_segment "/data/nightly_run" = Some "nightly_run" ∧
  ∃ w' bsite tsite,
    main Fixture.env Fixture.args_nightly initial_world = (Ok (), w') ∧
    build_xml w' = Some bsite ∧
    attrib bsite !! "BuildName" = Some "nightly_run" ∧
    test_xml w' = Some tsite ∧
    attrib tsite !! "BuildName" = Some "nightly_run".
Proof.
  destruct (C8_default_build_name Fixture.env Fixture.args_nightly
              initial_world eq_refl) as (_ & H2 & H3 & H4 & _).
  destruct (H2 "/data/" "nightly_run" 0%nat
              (or_intror (ex_intro _ "/data" eq_refl)) eq_refl eq_refl)
    as [Hbn Hseg].
  split; [exact Hbn|]. split; [exact Hseg|].
  destruct (H4 Fixture.info eq_refl eq_refl eq_refl) as [w' Hrun].
  destruct (H3 w' Hrun) as (bsite & tsite & Hb & Hba & Ht & Hta).
  exists w', bsite, tsite.
  split; [exact Hrun|]. split; [exact Hb|]. split; [exact Hba|].
  split; [exact Ht|exact Hta].
Defined.



(** * Further properties *)

(** ** The escape pattern and the sanitizer *)

Lemma startswith_char c x s :
  startswith (String x s) (String c "") = bool_decide (c = x).
Proof.
  unfold startswith. simpl. destruct (ascii_dec c x) as [->|Hne].
  - rewrite bool_decide_eq_true_2 by done. by destruct s.
  - by rewrite bool_decide_eq_false_2.
Qed.

Lemma py_in_char_app c a b :
  py_in (String c "") (a +:+ b)
  = py_in (String c "") a || py_in (String c "") b.
Proof.
  induction a as [|x a IH]; str_norm.
  - done.
  - simpl. rewrite !startswith_char, IH. by rewrite orb_assoc.
Qed.

Lemma py_in_char_cons c x s :
  py_in (String c "") (String x s)
  = bool_decide (c = x) || py_in (String c "") s.
Proof. simpl. by rewrite startswith_char. Qed.

Lemma all_in_esc_free p s :
  p ESC = false → all_in p s = true → py_in (String ESC "") s = false.
Proof.
  intros Hp. induction s as [|x s IH]; [done|].
  simpl all_in. intros [Hx Hs]%andb_true_iff.
  rewrite py_in_char_cons, (IH Hs), orb_false_r.
  apply bool_decide_eq_false. intros <-. congruence.
Qed.

(** An escape sequence is the escape character and a tail without it. *)
Lemma escape_shape m :
  re_match ansi_escape m →
  ∃ t, m = String ESC t ∧ t ≠ "" ∧ py_in (String ESC "") t = false ∧
       ansi_escape_match (String ESC (String ESC t)) = None.
Proof.
  intros (e & m1 & -> & He & H)%re_match_Seq_inv.
  apply re_match_Chr_inv in He as ->.
  apply re_match_Alt_inv in H as [H|H].
  - apply re_match_Cls_inv in H as (c & -> & Hc).
    exists (String c ""). str_norm. split_and!; [done..| |done].
    rewrite py_in_char_cons. simpl. rewrite orb_false_r.
    apply bool_decide_eq_false. intros <-. done.
  - apply re_match_Seq_inv in H as (b & m2 & -> & Hb & H).
    apply re_match_Chr_inv in Hb as ->.
    apply re_match_Seq_inv in H as (ps & m3 & -> & Hps & H).
    apply re_match_Seq_inv in H as (ins & fs & -> & Hins & Hf).
    apply re_match_Cls_inv in Hf as (f & -> & Hf).
    apply re_match_Star_Cls in Hps, Hins.
    exists (String "[" (ps +:+ ins +:+ String f "")). str_norm.
    split_and!; [done..| |done].
    rewrite py_in_char_cons, !py_in_char_app, py_in_char_cons.
    rewrite (all_in_esc_free class_param), (all_in_esc_free class_inter)
      by done.
    simpl. rewrite !orb_false_r.
    apply bool_decide_eq_false. intros <-. done.
Qed.

Lemma ansi_escape_match_shorter s rest :
  ansi_escape_match s = Some rest →
  (String.length rest < String.length s)%nat.
Proof.
  intros (m & -> & Hm)%ansi_escape_match_sound.
  apply escape_shape in Hm as (t & -> & _).
  rewrite app_length_str. simpl. lia.
Qed.

(** X1.  The executable matcher and the regular expression of the source
    agree: there is a match at the head of a text exactly when the text
    starts with a string of the pattern's language, and what is left is
    what follows that string. *)
Theorem X1_matcher_agrees_with_pattern s rest :
  ansi_escape_match s = Some rest ↔
  ∃ m, s = m +:+ rest ∧ re_match ansi_escape m.
Proof.
  split.
  - apply ansi_escape_match_sound.
  - intros (m & -> & Hm). by apply ansi_escape_match_complete.
Qed.

Lemma X1_witness :
  ansi_escape_match (String ESC "[0m" +:+ "rest") = Some "rest".
Proof.
  exact (proj2 (X1_matcher_agrees_with_pattern (String ESC "[0m" +:+ "rest")
                  "rest")
           (ex_intro _ (String ESC "[0m")
              (conj eq_refl (sgr_is_escape "0" eq_refl)))).
Defined.

(** X2.  A text without the escape character is returned unchanged. *)
Theorem X2_plain_text_unchanged s :
  esc_free s = true → strip_ansi_codes s = s.
Proof.
  unfold esc_free. intros H%negb_true_iff. by apply strip_ansi_codes_plain.
Qed.

Lemma X2_witness : strip_ansi_codes "all good [ok]" = "all good [ok]".
Proof. exact (X2_plain_text_unchanged "all good [ok]" eq_refl). Defined.

(** X3.  Sanitizing only removes: the result is never longer than the
    text, and it has the length of the text only when it is the text. *)
Theorem X3_sanitizing_only_shortens s :
  (String.length (strip_ansi_codes s) ≤ String.length s)%nat ∧
  (String.length (strip_ansi_codes s) = String.length s →
   strip_ansi_codes s = s).
Proof.
  remember (String.length s) as n eqn:Hn.
  revert s Hn. induction n as [n IH] using lt_wf_ind. intros s ->.
  destruct s as [|c s]; [done|].
  rewrite strip_ansi_codes_cons.
  destruct (ansi_escape_match (String c s)) as [rest|] eqn:Hm.
  - apply ansi_escape_match_shorter in Hm.
    destruct (IH _ Hm rest eq_refl) as [Hle _].
    split; [lia|]. intros Heq. lia.
  - destruct (IH (String.length s) ltac:(simpl; lia) s eq_refl) as [Hle Heq].
    simpl. split; [lia|]. intros [= H]. by rewrite Heq.
Qed.

Lemma X3_witness :
  (String.length (strip_ansi_codes Fixture.colored_ok)
   ≤ String.length Fixture.colored_ok)%nat.
Proof. exact (proj1 (X3_sanitizing_only_shortens Fixture.colored_ok)). Defined.

(** X4.  A text of plain pieces, each followed by an escape sequence,
    comes out as the plain pieces alone. *)
Theorem X4_colored_text_is_uncolored pieces rest :
  Forall (λ pe, esc_free pe.1 = true ∧ re_match ansi_escape pe.2) pieces →
  strip_ansi_codes (colored pieces +:+ rest)
  = uncolored pieces +:+ strip_ansi_codes rest.
Proof.
  induction 1 as [|[plain esc] l [Hp He] _ IH]; [done|].
  simpl in *. apply negb_true_iff in Hp.
  rewrite !app_assoc_str, strip_ansi_codes_plain_app by done.
  by rewrite strip_ansi_codes_escape, IH.
Qed.

Lemma X4_witness :
  strip_ansi_codes
    (colored [("step 1 ", String ESC "[32m"); ("done", String ESC "[0m")]
     +:+ " in 3s")
  = "step 1 done in 3s".
Proof.
  refine (X4_colored_text_is_uncolored
            [("step 1 ", String ESC "[32m"); ("done", String ESC "[0m")]
            " in 3s" _).
  repeat (apply Forall_cons_2 || apply Forall_nil_2).
  - split; [reflexivity|exact (sgr_is_escape "32" eq_refl)].
  - split; [reflexivity|exact (sgr_is_escape "0" eq_refl)].
Defined.

(** X5.  One pass is not a fixed point: for every escape sequence [m]
    there is a text (the escape character, then [m], then [m] without
    its escape character) whose sanitized form is [m] itself, which a
    second pass would remove. *)
Theorem X5_sanitized_text_may_hold_an_escape m :
  re_match ansi_escape m →
  strip_ansi_codes (String ESC "" +:+ m +:+ str_from 1 m) = m ∧
  strip_ansi_codes m = "" ∧
  m ≠ "".
Proof.
  intros Hm. pose proof Hm as (t & -> & Ht & Hfree & Hnone)%escape_shape.
  split_and!; [|by rewrite <-(app_empty_r (String ESC t)),
                   strip_ansi_codes_escape|done].
  str_norm. simpl str_from.
  rewrite strip_ansi_codes_cons.
  assert (ansi_escape_match (String ESC (String ESC (t +:+ t))) = None) as ->.
  { destruct t as [|c t]; [done|]. done. }
  change (String ESC (t +:+ t)) with (String ESC t +:+ t).
  by rewrite strip_ansi_codes_escape, strip_ansi_codes_plain.
Qed.

Lemma X5_witness :
  strip_ansi_codes (String ESC (String ESC "[0m[0m")) = String ESC "[0m" ∧
  strip_ansi_codes (String ESC "[0m") = "".
Proof.
  destruct (X5_sanitized_text_may_hold_an_escape (String ESC "[0m")
              (sgr_is_escape "0" eq_refl)) as (H1 & H2 & _).
  split; [exact H1|exact H2].
Defined.

(** ** The test report as a document *)

Lemma list_sort_nil l : list_sort l = [] ↔ l = [].
Proof.
  split; [|by intros ->].
  intros H. apply Permutation_nil_r. rewrite <-H.
  unfold list_sort. by rewrite merge_sort_Permutation.
Qed.

Lemma record_command_test_element args t :
  record_command (test_element args t) = Some ("cat " +:+ path t).
Proof. reflexivity. Qed.

Lemma record_full_name_test_element args t :
  record_full_name (test_element args t)
  = Some ("./" +:+ log_dir args +:+ "/" +:+ name t).
Proof. reflexivity. Qed.

(** X6.  Whatever the enumeration returns, the records of the test
    report follow the ascending order of the full paths: the paths of
    their command lines are a sorted rearrangement of the paths found. *)
Theorem X6_records_in_path_order env args bn sys_info w :
  build_name args = Some bn →
  ∃ w' site paths,
    generate_test_xml env args sys_info w = (Ok (), w') ∧
    test_xml w' = Some site ∧
    omap record_command (test_records site)
      = (λ p, "cat " +:+ p) <$> paths ∧
    omap record_name (test_records site) = os_path.basename <$> paths ∧
    Sorted String.le paths ∧
    paths ≡ₚ glob_glob env (os_path.join (log_dir args) "*.log").
Proof.
  intros Hbn.
  destruct (generate_test_xml_run env args bn sys_info w Hbn)
    as (w' & site & Hrun & Hfiles & _ & _ & Hrec & _).
  exists w', site, (list_sort (glob_glob env (os_path.join (log_dir args) "*.log"))).
  split_and!; [done|by eapply test_xml_written| | | |].
  - rewrite Hrec. generalize (list_sort (glob_glob env (os_path.join (log_dir args) "*.log"))).
    intros l. induction l as [|f l IH]; [done|].
    rewrite !fmap_cons. simpl. f_equal. apply IH.
  - by rewrite Hrec, record_names.
  - apply list_sort_sorted.
  - apply merge_sort_Permutation.
Qed.

Lemma X6_witness :
  ∃ w' site paths,
    generate_test_xml Fixture.env Fixture.args ∅ initial_world = (Ok (), w') ∧
    test_xml w' = Some site ∧
    omap record_command (test_records site)
      = (λ p, "cat " +:+ p) <$> paths ∧
    omap record_name (test_records site) = os_path.basename <$> paths ∧
    Sorted String.le paths ∧
    paths ≡ₚ ["logs/c.log"; "logs/a.log"; "logs/b.log"].
Proof.
  exact (X6_records_in_path_order Fixture.env Fixture.args "nightly"
           ∅ initial_world eq_refl).
Defined.

(** X7.  The test list and the records of a test report go together:
    the entries of the list are the full names of the records, in the
    same order, one for each path the enumeration returned. *)
Theorem X7_test_list_matches_records env args bn sys_info w :
  build_name args = Some bn →
  ∃ w' site,
    generate_test_xml env args sys_info w = (Ok (), w') ∧
    test_xml w' = Some site ∧
    test_list site = omap record_full_name (test_records site) ∧
    length (test_list site)
      = length (glob_glob env (os_path.join (log_dir args) "*.log")) ∧
    length (test_records site) = length (test_list site).
Proof.
  intros Hbn.
  destruct (generate_test_xml_run env args bn sys_info w Hbn)
    as (w' & site & Hrun & Hfiles & _ & _ & Hrec & Hlist).
  exists w', site. split_and!; [done|by eapply test_xml_written| | |].
  - rewrite Hrec, Hlist.
    generalize (list_sort (glob_glob env (os_path.join (log_dir args) "*.log"))).
    intros l. induction l as [|f l IH]; [done|].
    rewrite !fmap_cons. simpl. f_equal. apply IH.
  - by rewrite Hlist, length_fmap, list_sort_length.
  - by rewrite Hrec, Hlist, !length_fmap.
Qed.

Lemma X7_witness :
  ∃ w' site,
    generate_test_xml Fixture.env Fixture.args ∅ initial_world = (Ok (), w') ∧
    test_xml w' = Some site ∧
    test_list site = omap record_full_name (test_records site) ∧
    length (test_list site) = 3%nat ∧
    length (test_records site) = length (test_list site).
Proof.
  exact (X7_test_list_matches_records Fixture.env Fixture.args "nightly"
           ∅ initial_world eq_refl).
Defined.

(** ** Base names *)

Lemma basename_split p :
  ∃ d, p = d +:+ os_path.basename p ∧
       String.length d = rfind_succ "/" p ∧
       dir_prefix d ∧
       slash_free (os_path.basename p) = true.
Proof.
  unfold os_path.basename.
  induction p as [|a p (d & Hp & Hlen & Hd & Hfree)].
  - exists "". by split_and!; [..|left|].
  - simpl. destruct (rfind_succ "/" p) as [|i] eqn:Hr.
    + destruct d; [|done]. simpl in *.
      destruct (Ascii.eqb_spec a "/") as [->|Hne].
      * exists "/". split_and!; [done..|by right; exists ""|done].
      * exists "". split_and!; [done..|by left|].
        unfold slash_free in *. simpl.
        rewrite Hfree, andb_true_r. by apply negb_true_iff, Ascii.eqb_neq.
    + exists (String a d). simpl in *. split_and!.
      * str_norm. by rewrite <-Hp.
      * by rewrite Hlen.
      * right. destruct Hd as [->|[d' ->]]; [done|].
        by exists (String a d').
      * done.
Qed.

(** X8.  [basename] cuts a path after its last separator: the path is a
    directory prefix (empty, or ending in the separator) followed by the
    base name, and the base name has no separator in it. *)
Theorem X8_basename_is_last_component p :
  ∃ d, p = d +:+ os_path.basename p ∧
       dir_prefix d ∧
       slash_free (os_path.basename p) = true.
Proof.
  destruct (basename_split p) as (d & ? & _ & ? & ?). by exists d.
Qed.

Lemma X8_witness :
  ∃ d, "/data/nightly_run" = d +:+ os_path.basename "/data/nightly_run" ∧
       dir_prefix d ∧
       slash_free (os_path.basename "/data/nightly_run") = true.
Proof. exact (X8_basename_is_last_component "/data/nightly_run"). Defined.

Lemma endswith_spec s suf : endswith s suf = true → ∃ pre, s = pre +:+ suf.
Proof.
  induction s as [|c s IH]; cbn [endswith].
  - rewrite orb_false_r. intros ->%String.eqb_eq. by exists "".
  - intros [->%String.eqb_eq|[pre ->]%IH]%orb_true_iff.
    + by exists "".
    + by exists (String c pre).
Qed.

(** X9.  Joining a directory and a file name and taking the base name
    gives the file name back, for every name without a separator. *)
Theorem X9_basename_of_join d n :
  slash_free n = true → os_path.basename (os_path.join d n) = n.
Proof.
  intros Hn. unfold os_path.join.
  assert (startswith n "/" = false) as ->.
  { destruct n as [|c n]; [done|]. rewrite startswith_char.
    unfold slash_free in Hn. simpl in Hn.
    apply andb_true_iff in Hn as [Hc%negb_true_iff%Ascii.eqb_neq _].
    apply bool_decide_eq_false. congruence. }
  case_bool_decide as Hd; simpl.
  - subst d. by apply basename_slash_free.
  - destruct (endswith d "/") eqn:He.
    + apply endswith_spec in He as [pre ->].
      rewrite app_assoc_str. by apply basename_after_slash.
    + by apply basename_after_slash.
Qed.

Lemma X9_witness :
  os_path.basename (os_path.join "logs" "a.log") = "a.log".
Proof. exact (X9_basename_of_join "logs" "a.log" eq_refl). Defined.

(** X10.  The name of every record of a test report is free of
    separators, whatever paths the enumeration returned. *)
Theorem X10_record_names_have_no_separator env args bn sys_info w :
  build_name args = Some bn →
  ∃ w' site,
    generate_test_xml env args sys_info w = (Ok (), w') ∧
    test_xml w' = Some site ∧
    ∀ r, r ∈ test_records site →
      ∃ n, record_name r = Some n ∧ slash_free n = true.
Proof.
  intros Hbn.
  destruct (generate_test_xml_run env args bn sys_info w Hbn)
    as (w' & site & Hrun & Hfiles & _ & _ & Hrec & _).
  exists w', site. split_and!; [done|by eapply test_xml_written|].
  intros r Hr. rewrite Hrec in Hr.
  apply list_elem_of_fmap in Hr as (t & -> & Ht).
  apply list_elem_of_fmap in Ht as (f & -> & _).
  exists (os_path.basename f). split; [done|].
  by destruct (basename_split f) as (_ & _ & _ & _ & ?).
Qed.

Lemma X10_witness :
  ∃ w' site,
    generate_test_xml Fixture.env Fixture.args ∅ initial_world = (Ok (), w') ∧
    test_xml w' = Some site ∧
    ∀ r, r ∈ test_records site →
      ∃ n, record_name r = Some n ∧ slash_free n = true.
Proof.
  exact (X10_record_names_have_no_separator Fixture.env Fixture.args "nightly"
           ∅ initial_world eq_refl).
Defined.

(** ** The whole run, step by step *)

(** X11.  A run that ends normally has read the clock five times, and
    the time stamps of the three documents follow these readings in
    order: the build report takes the first, the start of the test
    session the second, its end date the third and its end time the
    fourth (the two end fields of the test report come from different
    readings), and the completion marker the fifth, next to the build
    identifier of the command line.  The run ends normally when the host
    information is collected and the build report and the completion
    marker parse. *)
Theorem X11_run_timeline env args w info :
  get_system_info env w = (Ok info, w) →
  minidom_parse env (run_build_site env args info w) = Ok () →
  minidom_parse env (run_done_root env args w) = Ok () →
  ∃ w' bsite build tsite testing done,
    main env args w = (Ok (), w') ∧
    clock_reads w' = (clock_reads w + 5)%nat ∧
    build_xml w' = Some bsite ∧ find "Build" bsite = Some build ∧
    test_xml w' = Some tsite ∧ testing_of tsite = Some testing ∧
    done_xml w' = Some done ∧
    findtext "StartBuildTime" build
      = Some (str_int (clock env (clock_reads w))) ∧
    findtext "StartDateTime" testing
      = Some (time_strftime env (clock env (clock_reads w + 1))) ∧
    findtext "StartTestTime" testing
      = Some (str_int (clock env (clock_reads w + 1))) ∧
    findtext "EndDateTime" testing
      = Some (time_strftime env (clock env (clock_reads w + 2))) ∧
    findtext "EndTestTime" testing
      = Some (str_int (clock env (clock_reads w + 3))) ∧
    findtext "time" done = Some (str_int (clock env (clock_reads w + 4))) ∧
    findtext "buildId" done = Some (build_id args).
Proof.
  intros Hinfo Hb Hd.
  pose proof (main_returns env args w info Hinfo Hb Hd) as Hmain.
  destruct (run_world_documents env args info w) as (Hbx & Htx & Hdx).
  replace (clock_reads w + 1)%nat with (1 + clock_reads w)%nat by lia.
  replace (clock_reads w + 2)%nat with (2 + clock_reads w)%nat by lia.
  replace (clock_reads w + 3)%nat with (3 + clock_reads w)%nat by lia.
  replace (clock_reads w + 4)%nat with (4 + clock_reads w)%nat by lia.
  eexists _, _, _, _, _, _. split; [exact Hmain|].
  split; [simpl; lia|].
  split; [exact Hbx|]. split; [reflexivity|].
  split; [exact Htx|]. split; [reflexivity|].
  split; [exact Hdx|].
  split_and!; try reflexivity.
  - unfold findtext, find, findall. simpl.
    rewrite !filter_cons_False by done.
    rewrite filter_app, findall_other_tag by done. reflexivity.
  - unfold findtext, find, findall. simpl.
    rewrite !filter_cons_False by done.
    rewrite filter_app, findall_other_tag by done. reflexivity.
  - unfold run_done_root, done_element, findtext, find, findall. simpl.
    unfold default_build_name. by destruct (negb _).
Qed.

Lemma X11_witness :
  ∃ w' tsite testing done,
    main Fixture.env Fixture.args initial_world = (Ok (), w') ∧
    clock_reads w' = 5%nat ∧
    test_xml w' = Some tsite ∧ testing_of tsite = Some testing ∧
    done_xml w' = Some done ∧
    findtext "EndDateTime" testing = Some "local 1700000002" ∧
    findtext "EndTestTime" testing = Some "1700000003" ∧
    findtext "time" done = Some "1700000004" ∧
    findtext "buildId" done = Some "42".
Proof.
  destruct (X11_run_timeline Fixture.env Fixture.args initial_world
              Fixture.info eq_refl eq_refl eq_refl)
    as (w' & bsite & build & tsite & testing & done & H1 & H2 & _ & _ & H5
        & H6 & H7 & _ & _ & _ & H11 & H12 & H13 & H14).
  exists w', tsite, testing, done.
  split; [exact H1|]. split; [exact H2|]. split; [exact H5|].
  split; [exact H6|]. split; [exact H7|]. split; [exact H11|].
  split; [exact H12|]. split; [exact H13|exact H14].
Defined.

(** X12.  What collecting the host information amounts to, step by
    step.  When the psutil block runs through, the two CPU counts and
    the memory size in megabytes are stored as text; the size is the
    total divided as doubles and truncated, which is the whole quotient
    for a total below 2^53 and can be one more from there on.  When one
    of the steps raises an [ImportError] (the import itself, or a later
    call), the three placeholders are stored, also over values an
    earlier step had stored.  When a step raises anything else,
    [get_system_info] raises that exception.  The world is never
    changed. *)
Theorem X12_host_info_outcome env w :
  match psutil_query env with
  | Ok (logical, physical, memory) =>
      ∃ info,
        get_system_info env w = (Ok info, w) ∧
        dom info = host_info_keys ∧
        info !! "NumberOfLogicalCPU" = Some (str_opt_int logical) ∧
        info !! "NumberOfPhysicalCPU" = Some (str_opt_int physical) ∧
        info !! "TotalPhysicalMemory" = Some (str_int memory)
  | Raise e =>
      if is_ImportError e then
        ∃ info,
          get_system_info env w = (Ok info, w) ∧
          dom info = host_info_keys ∧
          placeholders info
      else get_system_info env w = (Raise e, w)
  end ∧
  (∀ ps l p t,
     import_psutil env = Ok ps → cpu_count ps true = Ok l →
     cpu_count ps false = Ok p → virtual_memory_total ps = Ok t →
     0 ≤ t < 2 ^ 53 →
     psutil_query env = Ok (l, p, t / 1048576)) ∧
  megabytes (2 ^ 53 + 2 ^ 20 - 1) = Ok ((2 ^ 53 + 2 ^ 20 - 1) / 1048576 + 1).
Proof.
  split_and!.
  - rewrite get_system_info_query.
    destruct (psutil_query env) as [[[l p] m]|e].
    + eexists. split; [reflexivity|]. split; [apply dom_host_info|].
      by split_and!.
    + destruct (is_ImportError e); [|done].
      eexists. split; [reflexivity|]. split; [apply dom_host_info|].
      by split_and!.
  - intros ps l p t Hps Hl Hp Ht Hsmall. unfold psutil_query.
    by rewrite Hps, Hl, Hp, Ht, megabytes_small.
  - by vm_compute.
Qed.

Lemma X12_witness :
  get_system_info (Fixture.with_psutil (Ok Fixture.psutil_broken)) initial_world
  = (Raise Fixture.meminfo_missing, initial_world).
Proof.
  exact (proj1 (X12_host_info_outcome
                  (Fixture.with_psutil (Ok Fixture.psutil_broken))
                  initial_world)).
Defined.

(** X13.  How a run ends, with the output files writable as
    [write_file] has them.  When the host information fails, [main]
    raises its exception before anything is printed or written.  When
    the build report does not parse, [main] raises the parser's
    exception and has printed and written nothing.  When the completion
    marker does not parse, [main] raises the parser's exception with the
    build and test reports written and announced and [Done.xml] as it
    was.  In every other case [main] ends normally; it has then written
    the three documents and no other file (a document that was there is
    replaced), the build report and the completion marker pretty
    printed, the test report not, and has printed its confirmations in
    the order of the generators.  The test report is never what a run
    fails on. *)
Theorem X13_run_outcome env args w :
  match get_system_info env w with
  | (Raise e, _) => main env args w = (Raise e, w)
  | (Ok info, _) =>
      match minidom_parse env (run_build_site env args info w) with
      | Raise e =>
          ∃ w', main env args w = (Raise e, w') ∧
                files w' = files w ∧ stdout w' = stdout w
      | Ok _ =>
          match minidom_parse env (run_done_root env args w) with
          | Raise e =>
              ∃ w', main env args w = (Raise e, w') ∧
                    build_xml w' = Some (run_build_site env args info w) ∧
                    test_xml w' = Some (run_test_site env args info w) ∧
                    files w' !! "Done.xml" = files w !! "Done.xml" ∧
                    stdout w' = stdout w ++ ["Generated Build.xml"]
                                  ++ run_warning env args
                                  ++ ["Generated Test.xml"]
          | Ok _ =>
              ∃ w',
                main env args w = (Ok (), w') ∧
                dom (files w') = report_files ∪ dom (files w) ∧
                (∀ f, f ∉ report_files → files w' !! f = files w !! f) ∧
                files w' !! "Build.xml"
                  = Some (mk_doc true (run_build_site env args info w)) ∧
                files w' !! "Test.xml"
                  = Some (mk_doc false (run_test_site env args info w)) ∧
                files w' !! "Done.xml"
                  = Some (mk_doc true (run_done_root env args w)) ∧
                stdout w' = stdout w ++ ["Generated Build.xml"]
                              ++ run_warning env args
                              ++ ["Generated Test.xml"; "Generated Done.xml"]
          end
      end
  end.
Proof.
  destruct (get_system_info env w) as [[info|e] w0] eqn:Hinfo.
  - pose proof (get_system_info_world _ _ _ _ Hinfo) as ->.
    rewrite (main_run env args w info Hinfo).
    destruct (minidom_parse env (run_build_site env args info w)) as [[]|e].
    + destruct (minidom_parse env (run_done_root env args w)) as [[]|e].
      * eexists. split; [reflexivity|]. unfold run_world. simpl. split_and!.
        -- rewrite !dom_insert_L. unfold report_files.
           apply set_eq. intros x.
           rewrite !elem_of_union, !elem_of_singleton. tauto.
        -- intros f Hf. unfold report_files in Hf.
           rewrite !not_elem_of_union, !not_elem_of_singleton in Hf.
           destruct Hf as [[? ?] ?].
           by rewrite !lookup_insert_ne by done.
        -- rewrite lookup_insert_ne by done. rewrite lookup_insert_ne by done.
           by rewrite lookup_insert_eq.
        -- rewrite lookup_insert_ne by done. by rewrite lookup_insert_eq.
        -- by rewrite lookup_insert_eq.
        -- done.
      * eexists. split; [reflexivity|].
        unfold build_xml, test_xml. simpl. split_and!.
        -- rewrite lookup_insert_ne by done. by rewrite lookup_insert_eq.
        -- by rewrite lookup_insert_eq.
        -- rewrite lookup_insert_ne by done. by rewrite lookup_insert_ne.
        -- done.
    + eexists. by split; [reflexivity|].
  - pose proof (get_system_info_world _ _ _ _ Hinfo) as ->.
    unfold main, mbind, M_bind. by rewrite Hinfo.
Qed.

Lemma X13_witness :
  main (Fixture.with_psutil (Ok Fixture.psutil_broken)) Fixture.args
    initial_world
  = (Raise Fixture.meminfo_missing, initial_world) ∧
  (∃ w', main Fixture.env Fixture.args_colored_name initial_world
         = (Raise (mk_exc ExpatError "not well-formed (invalid token)"), w') ∧
         files w' = ∅ ∧ stdout w' = []) ∧
  (∃ w', main Fixture.env Fixture.args initial_world = (Ok (), w') ∧
         dom (files w') = report_files ∪ ∅).
Proof.
  split; [|split].
  - exact (X13_run_outcome
             (Fixture.with_psutil (Ok Fixture.psutil_broken)) Fixture.args
             initial_world).
  - pose proof (X13_run_outcome Fixture.env Fixture.args_colored_name
                  initial_world) as H.
    change (get_system_info Fixture.env initial_world)
      with (Ok Fixture.info, initial_world) in H.
    cbv beta iota in H.
    assert (minidom_parse Fixture.env
              (run_build_site Fixture.env Fixture.args_colored_name
                 Fixture.info initial_world)
            = Raise (mk_exc ExpatError "not well-formed (invalid token)"))
      as Hparse by reflexivity.
    rewrite Hparse in H. exact H.
  - pose proof (X13_run_outcome Fixture.env Fixture.args initial_world) as H.
    change (get_system_info Fixture.env initial_world)
      with (Ok Fixture.info, initial_world) in H.
    cbv beta iota in H.
    assert (minidom_parse Fixture.env
              (run_build_site Fixture.env Fixture.args Fixture.info
                 initial_world) = Ok ()) as Hbuild by reflexivity.
    assert (minidom_parse Fixture.env
              (run_done_root Fixture.env Fixture.args initial_world) = Ok ())
      as Hdone by reflexivity.
    rewrite Hbuild, Hdone in H.
    destruct H as (w' & Hrun & Hdom & _).
    exists w'. split; [exact Hrun|exact Hdom].
Defined.

(** A build name with an escape character in it: the parser rejects the
    build report, and the run ends there with nothing written. *)
Example main_rejects_colored_name :
  ∃ e w',
    main Fixture.env Fixture.args_colored_name initial_world = (Raise e, w') ∧
    exc_cls e = ExpatError ∧
    files w' = ∅ ∧ stdout w' = [] ∧ clock_reads w' = 1%nat.
Proof.
  rewrite (main_run Fixture.env Fixture.args_colored_name initial_world
             Fixture.info eq_refl).
  eexists _, _. split; [reflexivity|]. by split_and!.
Qed.

(** ** Root attributes and the build name *)

Lemma set_all_union (sys_info attrs : gmap string string) :
  set_all sys_info attrs = sys_info ∪ attrs.
Proof. apply map_eq. intros key. apply set_all_lookup. Qed.

(** X14.  The root elements of the build report and of the test report
    carry the same attributes: the six fixed ones and the host
    information, and where the host information has a key of a fixed
    attribute, the host information is what the documents show.  The
    build report is there when its document parses; the test report is
    written in any case. *)
Theorem X14_root_attributes env args bn sys_info w wt :
  build_name args = Some bn →
  minidom_parse env
    (site_element bn args sys_info
       [build_element env (clock env (clock_reads w))]) = Ok () →
  ∃ w1 w2 bsite tsite,
    generate_build_xml env args sys_info w = (Ok (), w1) ∧
    generate_test_xml env args sys_info wt = (Ok (), w2) ∧
    build_xml w1 = Some bsite ∧
    test_xml w2 = Some tsite ∧
    attrib bsite = sys_info ∪ base_attributes bn args ∧
    attrib tsite = attrib bsite ∧
    (∀ key v, sys_info !! key = Some v → attrib bsite !! key = Some v) ∧
    (∀ key, sys_info !! key = None →
            attrib bsite !! key = base_attributes bn args !! key).
Proof.
  intros Hbn Hparse.
  pose proof (generate_build_xml_run env args bn sys_info w Hbn) as Hrun1.
  simpl in Hrun1. rewrite Hparse in Hrun1.
  destruct (generate_test_xml_run env args bn sys_info wt Hbn)
    as (w2 & tsite & Hrun2 & Hfiles2 & _ & Hattr2 & _).
  set (bsite := site_element bn args sys_info
                  [build_element env (clock env (clock_reads w))]) in *.
  assert (attrib bsite = set_all sys_info (attrib (site_element bn args ∅ [])))
    as Hattr1 by reflexivity.
  assert (attrib bsite = sys_info ∪ base_attributes bn args) as Hb.
  { rewrite Hattr1, set_all_union. reflexivity. }
  eexists _, w2, bsite, tsite.
  split; [exact Hrun1|]. split; [exact Hrun2|].
  split; [unfold build_xml; simpl; by rewrite lookup_insert_eq|].
  split; [by eapply test_xml_written|].
  split; [exact Hb|]. split_and!.
  - by rewrite Hattr2, Hattr1.
  - intros key v Hkey. rewrite Hb. by apply lookup_union_Some_l.
  - intros key Hkey. rewrite Hb. by apply lookup_union_r.
Qed.

Lemma X14_witness :
  ∃ w1 w2 bsite tsite,
    generate_build_xml Fixture.env Fixture.args {["BuildName" := "host"]}
      initial_world = (Ok (), w1) ∧
    generate_test_xml Fixture.env Fixture.args {["BuildName" := "host"]}
      initial_world = (Ok (), w2) ∧
    build_xml w1 = Some bsite ∧
    test_xml w2 = Some tsite ∧
    attrib tsite = attrib bsite ∧
    attrib bsite !! "BuildName" = Some "host" ∧
    attrib bsite !! "Generator" = Some "ctest-3.24.2".
Proof.
  assert (minidom_parse Fixture.env
            (site_element "nightly" Fixture.args {["BuildName" := "host"]}
               [build_element Fixture.env
                  (clock Fixture.env (clock_reads initial_world))]) = Ok ())
    as Hparse by reflexivity.
  destruct (X14_root_attributes Fixture.env Fixture.args "nightly"
              {["BuildName" := "host"]} initial_world initial_world
              eq_refl Hparse)
    as (w1 & w2 & bsite & tsite & H1 & H2 & H3 & H4 & _ & H6 & H7 & H8).
  exists w1, w2, bsite, tsite.
  split; [exact H1|]. split; [exact H2|]. split; [exact H3|].
  split; [exact H4|]. split; [exact H6|].
  split; [exact (H7 "BuildName" "host" eq_refl)|].
  exact (H8 "Generator" eq_refl).
Defined.

(** X15.  A build name given on the command line and not empty is kept:
    [main] leaves the arguments as they are, and every run that ends
    normally has that name on both reports.  Filling the name in twice
    changes nothing more.  The run ends normally when the host
    information is collected and the build report and the completion
    marker parse. *)
Theorem X15_explicit_build_name_is_kept env args w s :
  build_name args = Some s →
  s ≠ "" →
  default_build_name args = args ∧
  default_build_name (default_build_name args) = default_build_name args ∧
  (∀ w', main env args w = (Ok (), w') →
     ∃ bsite tsite,
       build_xml w' = Some bsite ∧
       attrib bsite !! "BuildName" = Some s ∧
       test_xml w' = Some tsite ∧
       attrib tsite !! "BuildName" = Some s) ∧
  (∀ info, get_system_info env w = (Ok info, w) →
     minidom_parse env (run_build_site env args info w) = Ok () →
     minidom_parse env (run_done_root env args w) = Ok () →
     ∃ w', main env args w = (Ok (), w')).
Proof.
  intros Hs Hne.
  assert (default_build_name args = args) as Hargs.
  { unfold default_build_name, truthy. rewrite Hs.
    by apply String.eqb_neq in Hne as ->. }
  assert (effective_build_name args = s) as Heff.
  { unfold effective_build_name. rewrite Hs.
    by apply String.eqb_neq in Hne as ->. }
  split_and!; [done|by rewrite !Hargs| |].
  - intros w' Hmain. rewrite <-Heff. by eapply reports_carry_build_name.
  - intros info Hinfo Hb Hd. eexists. by apply main_returns.
Qed.

Lemma X15_witness :
  default_build_name Fixture.args = Fixture.args ∧
  ∃ w' bsite tsite,
    main Fixture.env Fixture.args initial_world = (Ok (), w') ∧
    build_xml w' = Some bsite ∧
    attrib bsite !! "BuildName" = Some "nightly" ∧
    test_xml w' = Some tsite ∧
    attrib tsite !! "BuildName" = Some "nightly".
Proof.
  destruct (X15_explicit_build_name_is_kept Fixture.env Fixture.args
              initial_world "nightly" eq_refl ltac:(discriminate))
    as (H1 & _ & H3 & H4).
  split; [exact H1|].
  destruct (H4 Fixture.info eq_refl eq_refl eq_refl) as [w' Hrun].
  destruct (H3 w' Hrun) as (bsite & tsite & Hb & Hba & Ht & Hta).
  exists w', bsite, tsite.
  split; [exact Hrun|]. split; [exact Hb|]. split; [exact Hba|].
  split; [exact Ht|exact Hta].
Defined.

(** ** More on classification *)

(** X16.  A log without the escape character is embedded as it is and
    classified on its raw text. *)
Theorem X16_plain_log_is_embedded_verbatim env args bn sys_info w :
  build_name args = Some bn →
  ∃ w' site,
    generate_test_xml env args sys_info w = (Ok (), w') ∧
    test_xml w' = Some site ∧
    ∀ i f raw,
      list_sort (glob_glob env (os_path.join (log_dir args) "*.log")) !! i
        = Some f →
      open_read env f = Ok raw →
      esc_free raw = true →
      ∃ r, test_records site !! i = Some r ∧
           record_output r = Some raw ∧
           record_status r =
             Some (if py_in "ERROR" raw then "failed" else "passed").
Proof.
  intros Hbn.
  destruct (generate_test_xml_run env args bn sys_info w Hbn)
    as (w' & site & Hrun & Hfiles & _ & _ & Hrec & _).
  exists w', site. split_and!; [done|by eapply test_xml_written|].
  intros i f raw Hi Hraw Hfree. eexists. rewrite Hrec.
  split; [by apply test_record_lookup|].
  rewrite record_output_test_element, record_status_test_element.
  unfold test_data. rewrite Hraw. simpl.
  apply negb_true_iff in Hfree. by rewrite strip_ansi_codes_plain.
Qed.

Lemma X16_witness :
  ∃ w' site r,
    generate_test_xml Fixture.env Fixture.args ∅ initial_world = (Ok (), w') ∧
    test_xml w' = Some site ∧
    test_records site !! 0%nat = Some r ∧
    record_output r = Some "ERROR: boom" ∧
    record_status r = Some "failed".
Proof.
  destruct (X16_plain_log_is_embedded_verbatim Fixture.env Fixture.args
              "nightly" ∅ initial_world eq_refl) as (w' & site & H1 & H2 & H3).
  destruct (H3 0%nat "logs/a.log" "ERROR: boom" eq_refl eq_refl eq_refl)
    as (r & Hr & Ho & Hs).
  exists w', site, r.
  split; [exact H1|]. split; [exact H2|]. split; [exact Hr|].
  split; [exact Ho|exact Hs].
Defined.

(** X17.  With at least one log file the generator prints no warning:
    its only output is the confirmation, and the report has records. *)
Theorem X17_no_warning_with_log_files env args bn sys_info w :
  build_name args = Some bn →
  glob_glob env (os_path.join (log_dir args) "*.log") ≠ [] →
  ∃ w' site,
    generate_test_xml env args sys_info w = (Ok (), w') ∧
    stdout w' = stdout w ++ ["Generated Test.xml"] ∧
    test_xml w' = Some site ∧
    test_records site ≠ [] ∧
    test_list site ≠ [].
Proof.
  intros Hbn Hglob.
  destruct (generate_test_xml_run env args bn sys_info w Hbn)
    as (w' & site & Hrun & Hfiles & Hout & _ & Hrec & Hlist).
  assert (list_sort (glob_glob env (os_path.join (log_dir args) "*.log")) ≠ [])
    as Hsorted by by rewrite list_sort_nil.
  exists w', site. split_and!; [done| |by eapply test_xml_written| |].
  - rewrite Hout. by rewrite bool_decide_eq_false_2.
  - rewrite Hrec. by destruct (list_sort _).
  - rewrite Hlist. by destruct (list_sort _).
Qed.

Lemma X17_witness :
  ∃ w' site,
    generate_test_xml Fixture.env Fixture.args ∅ initial_world = (Ok (), w') ∧
    stdout w' = ["Generated Test.xml"] ∧
    test_xml w' = Some site ∧
    test_records site ≠ [] ∧
    test_list site ≠ [].
Proof.
  exact (X17_no_warning_with_log_files Fixture.env Fixture.args "nightly"
           ∅ initial_world eq_refl ltac:(discriminate)).
Defined.

(** X18.  The keyword is found even when an escape sequence interrupts
    it: a text with ["ERROR"] cut in two by an escape sequence, after
    text without the escape character, is sanitized to a text that
    contains ["ERROR"]. *)
Theorem X18_interrupted_keyword_is_found pre a m b post :
  esc_free pre = true →
  a +:+ b = "ERROR" →
  re_match ansi_escape m →
  py_in "ERROR" (strip_ansi_codes (pre +:+ a +:+ m +:+ b +:+ post)) = true.
Proof.
  intros Hpre%negb_true_iff Hab Hm.
  assert (py_in (String ESC "") (a +:+ b) = false) as Hfree
    by by rewrite Hab.
  rewrite py_in_char_app in Hfree.
  apply orb_false_iff in Hfree as [Ha Hb].
  rewrite strip_ansi_codes_plain_app by done.
  rewrite strip_ansi_codes_plain_app by done.
  rewrite strip_ansi_codes_escape by done.
  rewrite strip_ansi_codes_plain_app by done.
  apply py_in_spec. exists pre, (strip_ansi_codes post).
  by rewrite <-Hab, !app_assoc_str.
Qed.

Lemma X18_witness :
  py_in "ERROR"
    (strip_ansi_codes ("run: " +:+ "ER" +:+ String ESC "[1m" +:+ "ROR"
                       +:+ " in step 2")) = true.
Proof.
  exact (X18_interrupted_keyword_is_found "run: " "ER" (String ESC "[1m")
           "ROR" " in step 2" eq_refl eq_refl (sgr_is_escape "1" eq_refl)).
Defined.

(** ** [normpath] on its own results *)

Lemma normal_comps_dotdots n l :
  n = O → Forall (λ c, c = "..") l → normal_comps n l.
Proof.
  intros Hn. induction l as [|x l IH] using rev_ind; [constructor|].
  intros [Hl [-> _]%Forall_cons]%Forall_app. by constructor.
Qed.

Lemma normal_comps_snoc_inv n l c :
  normal_comps n (l ++ [c]) →
  (c = ".." ∧ n = O ∧ Forall (λ c, c = "..") l) ∨
  (plain_segment c = true ∧ normal_comps n l).
Proof.
  inversion 1 as [Hnil|l' Hn Hl' Heq|l' c' Hl' Hc' Heq].
  - by destruct l.
  - apply app_inj_tail in Heq as [-> <-]. left. by split_and!.
  - apply app_inj_tail in Heq as [-> <-]. right. by split.
Qed.

Lemma normal_comps_prefix n l1 l2 :
  normal_comps n (l1 ++ l2) → normal_comps n l1.
Proof.
  induction l2 as [|x l2 IH] using rev_ind.
  - by rewrite app_nil_r.
  - rewrite app_assoc.
    intros [(_ & Hn & [Hl _]%Forall_app)|[_ Hl]]%normal_comps_snoc_inv.
    + by apply normal_comps_dotdots.
    + by apply IH.
Qed.

Lemma last_dotdots l :
  l ≠ [] → Forall (λ c, c = "..") l → last l = Some "..".
Proof.
  intros Hne Hl. destruct l as [|x l] using rev_ind; [done|].
  apply Forall_app in Hl as [_ [-> _]%Forall_cons]. by rewrite last_snoc.
Qed.

(** The loop of [normpath] keeps its list in this shape ... *)
Lemma normpath_step_normal n acc comp :
  normal_comps n acc → slash_free comp = true →
  normal_comps n (os_path.normpath_step n acc comp).
Proof.
  intros Hacc Hfree. unfold os_path.normpath_step.
  case_bool_decide as H1; [done|]. case_bool_decide as H2; [done|]. simpl.
  destruct (decide (comp = "..")) as [->|H3].
  - rewrite (bool_decide_eq_false_2 (".." ≠ "..")) by naive_solver. simpl.
    destruct acc as [|x acc _] using rev_ind.
    + rewrite (bool_decide_eq_true_2 ([] = [])) by done.
      rewrite (bool_decide_eq_false_2 ([] ≠ [])) by naive_solver.
      rewrite andb_true_r, andb_false_l, orb_false_r.
      case_bool_decide; [|done].
      by apply (normal_dotdot n []).
    + rewrite (bool_decide_eq_false_2 (acc ++ [x] = []))
        by (by destruct acc).
      rewrite (bool_decide_eq_true_2 (acc ++ [x] ≠ []))
        by (by destruct acc).
      rewrite andb_false_r, last_snoc. simpl.
      apply normal_comps_snoc_inv in Hacc as [(-> & Hn & Hl)|[Hx Hl]].
      * rewrite bool_decide_eq_true_2 by done.
        apply normal_dotdot; [done|].
        apply Forall_app. split; [done|by repeat constructor].
      * rewrite bool_decide_eq_false_2.
        -- by rewrite removelast_last.
        -- intros [= ->]. done.
  - rewrite (bool_decide_eq_true_2 (comp ≠ "..")) by done. simpl.
    apply normal_plain; [done|].
    unfold plain_segment. rewrite Hfree. simpl.
    by rewrite !andb_true_iff, !negb_true_iff, !String.eqb_neq.
Qed.

Lemma normpath_fold_normal n comps acc :
  normal_comps n acc → Forall (λ c, slash_free c = true) comps →
  normal_comps n (foldl (os_path.normpath_step n) acc comps).
Proof.
  intros Hacc Hcomps. revert acc Hacc.
  induction Hcomps as [|c l Hc _ IH]; intros acc Hacc; [done|].
  simpl. apply IH. by apply normpath_step_normal.
Qed.

(** ... and a list of this shape goes through the loop unchanged. *)
Lemma normpath_fold_fixed n l acc :
  normal_comps n (acc ++ l) →
  foldl (os_path.normpath_step n) acc l = acc ++ l.
Proof.
  revert acc. induction l as [|c l IH]; intros acc Hn.
  - by rewrite app_nil_r.
  - simpl.
    assert (normal_comps n ((acc ++ [c]) ++ l)) as Hn'
      by (by rewrite <-app_assoc).
    assert (os_path.normpath_step n acc c = acc ++ [c]) as ->;
      [|rewrite IH by done; by rewrite <-app_assoc].
    apply normal_comps_prefix in Hn'.
    apply normal_comps_snoc_inv in Hn' as [(-> & Hz & Hl)|[Hc _]].
    + unfold os_path.normpath_step. simpl.
      rewrite (bool_decide_eq_true_2 (n = O)) by done. simpl.
      destruct (decide (acc = [])) as [->|Hne].
      * by rewrite bool_decide_eq_true_2.
      * rewrite (bool_decide_eq_false_2 (acc = [])) by done.
        rewrite (bool_decide_eq_true_2 (acc ≠ [])) by done.
        by rewrite last_dotdots, bool_decide_eq_true_2.
    + by apply normpath_step_plain.
Qed.

Lemma str_split_join (comps : list string) :
  Forall (λ c, slash_free c = true) comps → comps ≠ [] →
  str_split "/" (str_join "/" comps) = comps.
Proof.
  induction 1 as [|c l Hc Hl IH]; [done|]. intros _.
  destruct l as [|c' l].
  - simpl. by apply str_split_slash_free.
  - change (str_join "/" (c :: c' :: l))
      with (c +:+ "/" +:+ str_join "/" (c' :: l)).
    str_norm. rewrite str_split_app, str_split_slash_free by done.
    by rewrite IH.
Qed.

Lemma str_split_leading_slashes n x :
  str_split "/" (str_repeat "/" n +:+ x) = replicate n "" ++ str_split "/" x.
Proof. induction n as [|n IH]; [done|]. simpl. str_norm. simpl. by rewrite IH. Qed.

Lemma str_join_head c (l : list string) :
  slash_free c = true → c ≠ "" →
  ∃ a rest, str_join "/" (c :: l) = String a rest ∧ a ≠ "/"%char.
Proof.
  intros Hfree Hne. destruct c as [|a c]; [done|].
  unfold slash_free in Hfree. simpl in Hfree.
  apply andb_true_iff in Hfree as [Ha%negb_true_iff%Ascii.eqb_neq _].
  destruct l as [|c' l].
  - by exists a, c.
  - exists a, (c +:+ "/" +:+ str_join "/" (c' :: l)). split; [|done].
    change (str_join "/" (String a c :: c' :: l))
      with (String a c +:+ "/" +:+ str_join "/" (c' :: l)).
    by str_norm.
Qed.

Lemma startswith_cons c p x s :
  startswith (String x s) (String c p) = bool_decide (c = x) && startswith s p.
Proof.
  unfold startswith. cbn [String.prefix].
  destruct (ascii_dec c x) as [->|Hne].
  - by rewrite bool_decide_eq_true_2.
  - by rewrite bool_decide_eq_false_2.
Qed.

Lemma startswith_empty s : startswith s "" = true.
Proof. by destruct s. Qed.

(** The count of leading separators [normpath] keeps is read back from
    its result. *)
Lemma initial_slashes_read_back n a rest :
  (n ≤ 2)%nat → a ≠ "/"%char →
  (if startswith (str_repeat "/" n +:+ String a rest) "/" then
     if startswith (str_repeat "/" n +:+ String a rest) "//"
        && negb (startswith (str_repeat "/" n +:+ String a rest) "///")
     then 2%nat else 1%nat
   else O) = n.
Proof.
  intros Hn Ha.
  assert (bool_decide ("/"%char = a) = false) as Hd
    by (apply bool_decide_eq_false; congruence).
  assert (bool_decide ("/"%char = "/"%char) = true) as Hs
    by by apply bool_decide_eq_true.
  destruct n as [|[|[|n]]]; [| | |lia]; cbn [str_repeat]; str_norm;
    by rewrite ?startswith_cons, ?startswith_empty, ?Hd, ?Hs.
Qed.

Lemma normpath_of_normal n comps :
  (n ≤ 2)%nat →
  normal_comps n comps →
  Forall (λ c, slash_free c = true ∧ c ≠ "") comps →
  comps ≠ [] →
  os_path.normpath (str_repeat "/" n +:+ str_join "/" comps)
  = str_repeat "/" n +:+ str_join "/" comps.
Proof.
  intros Hn Hnormal Hok Hne.
  destruct comps as [|c l]; [done|].
  pose proof Hok as [[Hc1 Hc2] _]%Forall_cons.
  destruct (str_join_head c l Hc1 Hc2) as (a & rest & Hjoin & Ha).
  assert (str_split "/" (String a rest) = c :: l) as Hsplit.
  { rewrite <-Hjoin. apply str_split_join; [|done].
    eapply Forall_impl; [done|]. by intros ? []. }
  unfold os_path.normpath. rewrite Hjoin.
  rewrite bool_decide_eq_false_2 by by apply app_not_empty.
  rewrite initial_slashes_read_back by done.
  rewrite str_split_leading_slashes, Hsplit.
  rewrite foldl_app, normpath_step_empties.
  rewrite (normpath_fold_fixed n (c :: l) []) by done. simpl app.
  rewrite Hjoin.
  by rewrite bool_decide_eq_false_2 by by apply app_not_empty.
Qed.

(** A normalized path is ["."], the root, or the kept separators and
    the joined components of a list in normal shape. *)
Lemma normpath_shape path :
  os_path.normpath path = "." ∨
  os_path.normpath path = "/" ∨
  os_path.normpath path = "//" ∨
  ∃ n comps,
    (n ≤ 2)%nat ∧ normal_comps n comps ∧
    Forall (λ c, slash_free c = true ∧ c ≠ "") comps ∧ comps ≠ [] ∧
    os_path.normpath path = str_repeat "/" n +:+ str_join "/" comps.
Proof.
  unfold os_path.normpath.
  case_bool_decide as Hempty; [by left|].
  set (n := if startswith path "/" then _ else _).
  assert (n ≤ 2)%nat as Hn.
  { subst n. destruct (startswith path "/"); [|lia].
    destruct (_ && _); lia. }
  pose proof (normpath_fold_normal n (str_split "/" path) []
                (normal_nil n) (str_split_components path)) as Hnormal.
  pose proof (normpath_components n (str_split "/" path) []
                (Forall_nil_2 _) (str_split_components path)) as Hok.
  destruct (foldl (os_path.normpath_step n) [] (str_split "/" path))
    as [|c l] eqn:Hcomps.
  - simpl. rewrite app_empty_r.
    destruct n as [|[|[|n]]]; [by left|by right; left|by right; right; left|lia].
  - right. right. right. exists n, (c :: l).
    split_and!; [done..|].
    rewrite bool_decide_eq_false_2; [done|].
    pose proof Hok as [[Hc1 Hc2] _]%Forall_cons.
    destruct (str_join_head c l Hc1 Hc2) as (a & rest & -> & _).
    by apply app_not_empty.
Qed.

(** X19.  [normpath] is idempotent: a normalized path normalizes to
    itself, so a log directory given in normalized form and the form
    [main] computes from it name the same build. *)
Theorem X19_normpath_idempotent path :
  os_path.normpath (os_path.normpath path) = os_path.normpath path.
Proof.
  destruct (normpath_shape path)
    as [->|[->|[->|(n & comps & Hn & Hnormal & Hok & Hne & ->)]]];
    [done..|].
  by apply normpath_of_normal.
Qed.

Lemma X19_witness :
  os_path.normpath (os_path.normpath "//data/./x/../nightly_run/")
  = os_path.normpath "//data/./x/../nightly_run/".
Proof. exact (X19_normpath_idempotent "//data/./x/../nightly_run/"). Defined.
